(** * samtools dict (pysam copy): a shallow embedding of [write_dict]

    Source: [src/samtools/dict.c.pysam.c].  The file embeds [write_dict] and
    the tail of [dict_main] as Rocq functions and proves the properties the
    specification states about them.

    Conventions of the embedding.
    - A [string] stands for the characters of a NUL-terminated C string
      before its terminator; a [list ascii] is a byte buffer ([kstring_t]).
    - The [int] counters [i] and [k] are integers in the range of a 32-bit
      [int]; an increment that leaves the range is undefined behaviour in C
      and is the outcome [Undef] here.
    - [hts_md5_init] may fail to allocate (lines 70-71); [calloc] and
      [kseq_init], whose results the code does not test, succeed.
    - The [_WIN32] branch ([_fullpath]) is not embedded. *)

From Stdlib Require Import ZArith Ascii String DecimalString.
From stdpp Require Import base option list strings gmap.

Local Open Scope Z_scope.

(** ** Bytes and C characters *)

Definition byte_val (c : ascii) : Z := Z.of_N (N_of_ascii c).
Definition byte_of (z : Z) : ascii := ascii_of_N (Z.to_N (z mod 256)).

(** The value of a [char] object read in an expression: plain [char] is
    signed on some platforms and unsigned on others. *)
Definition char_val (char_signed : bool) (c : ascii) : Z :=
  let b := byte_val c in
  if char_signed && (128 <=? b) then b - 256 else b.

(** [toupper] of <ctype.h> in the "C" locale, on [int]. *)
Definition toupper (c : Z) : Z :=
  if (97 <=? c) && (c <=? 122) then c - 32 else c.

(** ** MD5 *)

(** Modelled from the spec: htslib's [hts_md5_init], [hts_md5_reset],
    [hts_md5_update], [hts_md5_final] and [hts_md5_hex] are called by
    [write_dict] but are not under src/.  The specification says they are a
    streaming accumulator for the standard MD5 algorithm and a lowercase
    hexadecimal rendering, two characters per byte.  [MD5.md5] below is the
    algorithm of RFC 1321 on 32-bit words kept in [Z]. *)
Module MD5.

Definition add32 (x y : Z) : Z := (x + y) mod 2 ^ 32.
Definition not32 (x : Z) : Z := Z.lxor x 4294967295.
Definition rotl32 (x s : Z) : Z :=
  Z.lor (Z.shiftl x s mod 2 ^ 32) (Z.shiftr x (32 - s)).

Definition F (x y z : Z) : Z := Z.lor (Z.land x y) (Z.land (not32 x) z).
Definition G (x y z : Z) : Z := Z.lor (Z.land x z) (Z.land y (not32 z)).
Definition H (x y z : Z) : Z := Z.lxor x (Z.lxor y z).
Definition I (x y z : Z) : Z := Z.lxor y (Z.lor x (not32 z)).

(** T[i] = floor (2^32 * |sin (i + 1)|). *)
Definition T : list Z :=
  [ 3614090360; 3905402710; 606105819; 3250441966; 4118548399; 1200080426;
    2821735955; 4249261313; 1770035416; 2336552879; 4294925233; 2304563134;
    1804603682; 4254626195; 2792965006; 1236535329; 4129170786; 3225465664;
    643717713; 3921069994; 3593408605; 38016083; 3634488961; 3889429448;
    568446438; 3275163606; 4107603335; 1163531501; 2850285829; 4243563512;
    1735328473; 2368359562; 4294588738; 2272392833; 1839030562; 4259657740;
    2763975236; 1272893353; 4139469664; 3200236656; 681279174; 3936430074;
    3572445317; 76029189; 3654602809; 3873151461; 530742520; 3299628645;
    4096336452; 1126891415; 2878612391; 4237533241; 1700485571; 2399980690;
    4293915773; 2240044497; 1873313359; 4264355552; 2734768916; 1309151649;
    4149444226; 3174756917; 718787259; 3951481745 ].

Definition shifts : list Z :=
  [ 7; 12; 17; 22; 7; 12; 17; 22; 7; 12; 17; 22; 7; 12; 17; 22;
    5; 9; 14; 20; 5; 9; 14; 20; 5; 9; 14; 20; 5; 9; 14; 20;
    4; 11; 16; 23; 4; 11; 16; 23; 4; 11; 16; 23; 4; 11; 16; 23;
    6; 10; 15; 21; 6; 10; 15; 21; 6; 10; 15; 21; 6; 10; 15; 21 ].

Record state := State { sa : Z; sb : Z; sc : Z; sd : Z }.

Definition init : state :=
  State 1732584193 4023233417 2562383102 271733878.

(** Operation number [i] (0..63) of a block whose sixteen words are [X]. *)
Definition op (X : list Z) (st : state) (i : nat) : state :=
  let '(State a b c d) := st in
  let n := Z.of_nat i in
  let '(f, g) :=
    match (i / 16)%nat with
    | 0%nat => (F b c d, n)
    | 1%nat => (G b c d, (5 * n + 1) mod 16)
    | 2%nat => (H b c d, (3 * n + 5) mod 16)
    | _ => (I b c d, (7 * n) mod 16)
    end in
  let x := X !!! Z.to_nat g in
  let sum := add32 (add32 (add32 a f) x) (T !!! i) in
  State d (add32 b (rotl32 sum (shifts !!! i))) b c.

(** Four bytes, least significant first, to a word and back. *)
Definition word_of_bytes (bs : list Z) : Z :=
  foldr (fun b acc => b + 256 * acc) 0 bs.

Definition bytes_of_word (w : Z) : list Z :=
  [ w mod 256; (w / 256) mod 256; (w / 65536) mod 256; (w / 16777216) mod 256 ].

Fixpoint words (n : nat) (bs : list Z) : list Z :=
  match n with
  | O => []
  | S n' => word_of_bytes (take 4 bs) :: words n' (drop 4 bs)
  end.

Definition block (st : state) (bs : list Z) : state :=
  let st' := foldl (op (words 16 bs)) st (seq 0 64) in
  State (add32 (sa st) (sa st')) (add32 (sb st) (sb st'))
        (add32 (sc st) (sc st')) (add32 (sd st) (sd st')).

Fixpoint blocks (n : nat) (st : state) (bs : list Z) : state :=
  match n with
  | O => st
  | S n' => blocks n' (block st (take 64 bs)) (drop 64 bs)
  end.

(** Padding: a one bit, zero bits up to 56 modulo 64 bytes, and the
    message length in bits as a 64-bit little-endian integer. *)
Definition pad (msg : list Z) : list Z :=
  let len := Z.of_nat (length msg) in
  let bits := (8 * len) mod 2 ^ 64 in
  msg ++ [128] ++ replicate (Z.to_nat ((55 - len) mod 64)) 0
      ++ bytes_of_word (bits mod 2 ^ 32) ++ bytes_of_word (bits / 2 ^ 32).

(** The 16-byte digest of a message. *)
Definition md5 (msg : list ascii) : list ascii :=
  let p := pad (byte_val <$> msg) in
  let st := blocks (length p / 64) init p in
  byte_of <$> (bytes_of_word (sa st) ++ bytes_of_word (sb st)
               ++ bytes_of_word (sc st) ++ bytes_of_word (sd st)).

End MD5.

(** Modelled from the spec: the accumulator holds the bytes absorbed since
    the last reset; finishing it yields their MD5 digest. *)
Definition hts_md5_context := list ascii.

Definition hts_md5_init : hts_md5_context := [].
Definition hts_md5_reset (ctx : hts_md5_context) : hts_md5_context := [].
Definition hts_md5_update (ctx : hts_md5_context) (data : list ascii) (size : Z)
  : hts_md5_context := ctx ++ take (Z.to_nat size) data.
Definition hts_md5_final (ctx : hts_md5_context) : list ascii := MD5.md5 ctx.

Definition hex_digit (n : Z) : ascii :=
  byte_of (if n <? 10 then 48 + n else 87 + n).

(** Modelled from the spec: lowercase hexadecimal, two characters per byte. *)
Definition hts_md5_hex (digest : list ascii) : string :=
  string_of_list_ascii
    (flat_map (fun c => [hex_digit (byte_val c / 16); hex_digit (byte_val c mod 16)])
              digest).

Definition bytes_of_string (s : string) : list ascii := list_ascii_of_string s.

(** ** C [int] counters and undefined behaviour *)

Definition INT_MAX : Z := 2147483647.

(** Outcome of a fragment of C code: a value, undefined behaviour, or (for
    the fuelled loop below only) an exhausted iteration budget. *)
Inductive res (A : Type) : Type :=
  | Ok (a : A)
  | Undef
  | NoFuel.
Arguments Ok {A} a.
Arguments Undef {A}.
Arguments NoFuel {A}.

Global Instance res_ret : MRet res := fun A a => Ok a.
Global Instance res_bind : MBind res := fun A B f r =>
  match r with
  | Ok a => f a
  | Undef => Undef
  | NoFuel => NoFuel
  end.

(** [++x] on an [int]: overflow of a signed integer is undefined. *)
Definition int_incr (x : Z) : res Z :=
  if x <? INT_MAX then Ok (x + 1) else Undef.

(** Conversion of an [int] to the 64-bit [size_t] it is compared with. *)
Definition size_t_of_int (x : Z) : Z := x mod 2 ^ 64.

(** Conversion of a [size_t] to [int]: the value modulo 2^32, as a signed
    number. *)
Definition int_of_size_t (x : Z) : Z := (x + 2 ^ 31) mod 2 ^ 32 - 2 ^ 31.

(** ** The normalisation loop (dict.c lines 76-79)

    [for (i = k = 0; i < seq->seq.l; ++i)
       if (seq->seq.s[i] >= '!' && seq->seq.s[i] <= '~')
         seq->seq.s[k++] = toupper(seq->seq.s[i]);]

    The buffer [s] is compacted in place; the result is the buffer after the
    loop together with [k]. *)
Fixpoint normalize_from (fuel : nat) (char_signed : bool)
    (s : list ascii) (i k : Z) : res (list ascii * Z) :=
  match fuel with
  | O => NoFuel
  | S fuel' =>
    if size_t_of_int i <? Z.of_nat (length s) then
      match s !! Z.to_nat i with
      | None => Undef
      | Some c =>
        let v := char_val char_signed c in
        '(s1, k1) ← (if (33 <=? v) && (v <=? 126)
                      then k' ← int_incr k;
                           Ok (<[Z.to_nat k := byte_of (toupper v)]> s, k')
                      else Ok (s, k));
        i1 ← int_incr i;
        normalize_from fuel' char_signed s1 i1 k1
      end
    else Ok (s, k)
  end.

Definition normalize (char_signed : bool) (s : list ascii) : res (list ascii * Z) :=
  normalize_from (S (length s)) char_signed s 0 0.

(** Lines 76-83: the sequence buffer after normalisation, the accumulator,
    [k] and the hexadecimal digest. *)
Definition seq_digest (char_signed : bool) (md5 : hts_md5_context) (s : list ascii)
  : res (list ascii * hts_md5_context * Z * string) :=
  '(s', k) ← normalize char_signed s;
  let md5 := hts_md5_reset md5 in
  let md5 := hts_md5_update md5 s' k in
  let digest := hts_md5_final md5 in
  let hex := hts_md5_hex digest in
  Ok (s', md5, k, hex).

(** What the specification calls [digest]: length and hexadecimal digest. *)
Definition digest (char_signed : bool) (md5 : hts_md5_context) (s : list ascii)
  : res (Z * string) :=
  '(_, _, k, hex) ← seq_digest char_signed md5 s; Ok (k, hex).

(** ** The specification's normalisation, in its own words *)

(** Bytes whose value lies in the inclusive range 0x21..0x7E. *)
Definition is_graph (c : ascii) : bool :=
  (33 <=? byte_val c) && (byte_val c <=? 126).

Definition retained (s : list ascii) : list ascii := List.filter is_graph s.

(** Case-folding of one byte to uppercase. *)
Definition fold_upper (c : ascii) : ascii :=
  if (97 <=? byte_val c) && (byte_val c <=? 122) then byte_of (byte_val c - 32) else c.

Definition normalized (s : list ascii) : list ascii := fold_upper <$> retained s.

Definition is_lower_hex (c : ascii) : bool :=
  ((48 <=? byte_val c) && (byte_val c <=? 57))
  || ((97 <=? byte_val c) && (byte_val c <=? 102)).

(** ** C strings and formatting *)

Local Open Scope string_scope.

Definition TAB : string := String "009" EmptyString.
Definition NL : string := String "010" EmptyString.

(** [strcmp]: zero exactly when the two strings are equal. *)
Definition strcmp (a b : string) : Z :=
  match String.compare a b with
  | Eq => 0
  | Lt => -1
  | Gt => 1
  end.

(** [strncmp]: [strcmp] on at most the first [n] characters of each. *)
Definition strncmp (a b : string) (n : nat) : Z :=
  strcmp (substring 0 n a) (substring 0 n b).

(** [p + n] for a [char *] that has at least [n] characters before its
    terminator. *)
Fixpoint str_advance (n : nat) (p : string) : string :=
  match n, p with
  | O, _ => p
  | S n', String _ p' => str_advance n' p'
  | S _, EmptyString => EmptyString
  end.

(** The conversion [%d]. *)
Definition fmt_d (x : Z) : string := NilZero.string_of_int (Z.to_int x).

(** The conversion [%s]; glibc prints a null pointer as (null). *)
Definition fmt_s (p : option string) : string :=
  match p with
  | Some s => s
  | None => "(null)"
  end.

(** ** Records, options, files *)

(** The fields of [kseq_t] that [write_dict] reads: [seq->name.s] and the
    buffer [seq->seq.s] of [seq->seq.l] bytes. *)
Record kseq_t := Kseq { seq_name : string; seq_seq : list ascii }.

(** Modelled from the spec: [kseq_read] (htslib's kseq.h, instantiated by
    [KSEQ_INIT]) is not under src/.  An opened input yields its FASTA
    records in order and then a negative return value [- ks_final]: -1 at
    the end of the input, another negative number when the stream could not
    be read.  For a record the return value is the length of its sequence,
    a [size_t], as the [int] that line 75 keeps in [l]. *)
Record kstream := Kstream { ks_records : list kseq_t; ks_final : positive }.

Definition kseq_return (seq : kseq_t) : Z :=
  int_of_size_t (Z.of_nat (length (seq_seq seq))).

(** The return value of the next call, with [records] still to come. *)
Definition kseq_read (records : list kseq_t) (final : positive) : Z :=
  match records with
  | [] => Zneg final
  | seq :: _ => kseq_return seq
  end.

Record args_t := Args {
  output_fname : option string;
  fname : option string;
  assembly : option string;
  species : option string;
  uri : option string;
  alias : bool;
  header : bool
}.

(** What the run finds around it: the files that can be opened for reading
    and the records they hold, standard input, the paths that can be opened
    for writing, [realpath], whether standard input is a terminal, and the
    signedness of plain [char]. *)
Record world := World {
  gzopen : string -> option kstream;
  gzdopen_stdin : option kstream;
  fopen_w : string -> bool;
  realpath : string -> option string;
  stdin_isatty : bool;
  char_signed : bool
}.

(** What the run writes: the two redirected streams and the files. *)
Record io := IO {
  io_stdout : string;
  io_stderr : string;
  io_files : gmap string string
}.

Inductive FILE :=
  | samtools_stdout
  | samtools_stderr
  | file (path : string).

Definition fprintf (f : FILE) (text : string) (o : io) : io :=
  match f with
  | samtools_stdout => IO (io_stdout o +:+ text) (io_stderr o) (io_files o)
  | samtools_stderr => IO (io_stdout o) (io_stderr o +:+ text) (io_files o)
  | file path =>
    IO (io_stdout o) (io_stderr o) (alter (fun c => c +:+ text) path (io_files o))
  end.

(** [fopen (path, "w")]: the file exists and is empty afterwards. *)
Definition fopen (w : world) (path : string) (o : io) : option (FILE * io) :=
  if fopen_w w path
  then Some (file path, IO (io_stdout o) (io_stderr o) (<[path := ""]> (io_files o)))
  else None.

(** How a call ends: it returns, or [samtools_exit] ends the command. *)
Inductive outcome :=
  | Returned (o : io)
  | Exited (status : Z) (o : io).

(** ** [write_dict] *)

(** Lines 85-98: the AN field. *)
Definition write_alias (out : FILE) (seq : kseq_t) (o : io) : io :=
  let name := seq_name seq in
  let '(name, o) :=
    if (strncmp name "chr" 3 =? 0)%Z
    then let name := str_advance 3 name in
         (name, fprintf out (TAB +:+ "AN:" +:+ name) o)
    else (name, fprintf out (TAB +:+ "AN:chr" +:+ name) o) in
  if (strcmp name "M" =? 0)%Z then fprintf out ",chrMT,MT" o
  else if (strcmp name "MT" =? 0)%Z then fprintf out ",chrM,M" o
  else o.

(** Lines 99-109: the UR field. *)
Definition write_uri (w : world) (fn : string) (args : args_t) (out : FILE) (o : io)
  : io :=
  match uri args with
  | Some u => fprintf out (TAB +:+ "UR:" +:+ u) o
  | None =>
    if negb (strcmp fn "-" =? 0)%Z
    then let real_path := realpath w fn in
         fprintf out (TAB +:+ "UR:file://" +:+ fmt_s real_path) o
    else o
  end.

(** Lines 76-112: the body of the loop, for the record now in [seq]. *)
Definition write_record (w : world) (fn : string) (args : args_t) (out : FILE)
    (md5 : hts_md5_context) (seq : kseq_t) (o : io) : res (hts_md5_context * io) :=
  '(_, md5, k, hex) ← seq_digest (char_signed w) md5 (seq_seq seq);
  let o := fprintf out ("@SQ" +:+ TAB +:+ "SN:" +:+ seq_name seq +:+ TAB +:+ "LN:"
                        +:+ fmt_d k +:+ TAB +:+ "M5:" +:+ hex) o in
  let o := if alias args then write_alias out seq o else o in
  let o := write_uri w fn args out o in
  let o := match assembly args with
           | Some a => fprintf out (TAB +:+ "AS:" +:+ a) o
           | None => o
           end in
  let o := match species args with
           | Some s => fprintf out (TAB +:+ "SP:" +:+ s) o
           | None => o
           end in
  Ok (md5, fprintf out NL o).

(** Line 75, [while ((l = kseq_read(seq)) >= 0)]: the body runs for the
    next record when the value returned with it is not negative; any
    negative value ends the loop. *)
Fixpoint read_loop (w : world) (fn : string) (args : args_t) (out : FILE)
    (md5 : hts_md5_context) (records : list kseq_t) (final : positive) (o : io)
  : res (hts_md5_context * io) :=
  let l := kseq_read records final in
  if (0 <=? l)%Z then
    match records with
    | seq :: rest =>
      '(md5, o) ← write_record w fn args out md5 seq o;
      read_loop w fn args out md5 rest final o
    | [] => Ok (md5, o)
    end
  else Ok (md5, o).

Definition HD_line : string := "@HD" +:+ TAB +:+ "VN:1.0" +:+ TAB +:+ "SO:unsorted" +:+ NL.

(** Line 56: the input is standard input when its name is "-". *)
Definition open_input (w : world) (fn : string) : option kstream :=
  if negb (strcmp fn "-" =? 0)%Z then gzopen w fn else gzdopen_stdin w.

(** Lines 61-68: where the dictionary goes; [inl] when the output file
    cannot be opened, with the message written. *)
Definition open_output (w : world) (args : args_t) (o : io) : io + FILE * io :=
  match output_fname args with
  | Some path =>
    match fopen w path o with
    | Some (out, o) => inr (out, o)
    | None =>
      inl (fprintf samtools_stderr
             ("dict: " +:+ path +:+ ": Cannot open file for writing" +:+ NL) o)
    end
  | None => inr (samtools_stdout, o)
  end.

(** Whether the output path names the file the input was opened from: the
    same name, or the same resolved path.  Standard input is no file. *)
Definition names_input (w : world) (path fn : string) : bool :=
  negb (strcmp fn "-" =? 0)%Z
  && (String.eqb path fn
      || match realpath w path, realpath w fn with
         | Some a, Some b => String.eqb a b
         | _, _ => false
         end).

(** The input as the first read (line 75) finds it.  [gzopen] (line 56)
    reads nothing yet; when [fopen] (line 63) has emptied the very file the
    input was opened from, the first read is at its end. *)
Definition first_read (w : world) (fn : string) (args : args_t) (fp : kstream)
  : kstream :=
  match output_fname args with
  | Some path => if names_input w path fn then Kstream [] 1 else fp
  | None => fp
  end.

(** [write_dict]; [md5] is what [hts_md5_init ()] returns at line 70, a
    context or a null pointer. *)
Definition write_dict (md5 : option hts_md5_context) (w : world) (fn : string)
    (args : args_t) (o : io) : res outcome :=
  match open_input w fn with
  | None =>
    Ok (Exited 1 (fprintf samtools_stderr
                    ("dict: " +:+ fn +:+ ": No such file or directory" +:+ NL) o))
  | Some fp =>
    match open_output w args o with
    | inl o => Ok (Exited 1 o)
    | inr (out, o) =>
      match md5 with
      | None => Ok (Exited 1 o)
      | Some md5 =>
        let fp := first_read w fn args fp in
        let o := if header args then fprintf out HD_line o else o in
        '(_, o) ← read_loop w fn args out md5 (ks_records fp) (ks_final fp) o;
        Ok (Returned o)
      end
    end
  end.

(** ** [dict_main] *)

Definition usage_text : string :=
  NL
  +:+ "About:   Create a sequence dictionary file from a fasta file" +:+ NL
  +:+ "Usage:   samtools dict [options] <file.fa|file.fa.gz>" +:+ NL +:+ NL
  +:+ "Options: -a, --assembly STR    assembly" +:+ NL
  +:+ "         -A, --alias, --alternative-name" +:+ NL
  +:+ "                               add AN tag by adding/removing 'chr'" +:+ NL
  +:+ "         -H, --no-header       do not print @HD line" +:+ NL
  +:+ "         -o, --output FILE     file to write out dict file [samtools_stdout]" +:+ NL
  +:+ "         -s, --species STR     species" +:+ NL
  +:+ "         -u, --uri STR         URI [file:///abs/path/to/file.fa]" +:+ NL
  +:+ NL.

Definition dict_usage (o : io) : Z * io := (1, fprintf samtools_stderr usage_text o).

(** One turn of the [getopt_long] loop: the option character returned and
    [optarg].  [None] as result stands for [return dict_usage()]. *)
Definition set_option (args : args_t) (c : ascii) (optarg : option string)
  : option args_t :=
  let '(Args o f a s u al h) := args in
  if Ascii.eqb c "A" then Some (Args o f a s u true h)
  else if Ascii.eqb c "a" then Some (Args o f optarg s u al h)
  else if Ascii.eqb c "s" then Some (Args o f a optarg u al h)
  else if Ascii.eqb c "u" then Some (Args o f a s optarg al h)
  else if Ascii.eqb c "o" then Some (Args optarg f a s u al h)
  else if Ascii.eqb c "H" then Some (Args o f a s u al false)
  else None.

Fixpoint parse_options (args : args_t) (opts : list (ascii * option string))
  : option args_t :=
  match opts with
  | [] => Some args
  | (c, optarg) :: rest =>
    match set_option args c optarg with
    | Some args => parse_options args rest
    | None => None
    end
  end.

(** Lines 139-140: [calloc] clears the options, then [header] is set. *)
Definition default_args : args_t := Args None None None None None false true.

(** [dict_main]: [opts] is what the successive calls of [getopt_long]
    return, [operands] is [argv] from [optind] on, [md5] what
    [hts_md5_init ()] will return. *)
Definition dict_main (md5 : option hts_md5_context) (w : world)
    (opts : list (ascii * option string)) (operands : list string) (o : io)
  : res (Z * io) :=
  match parse_options default_args opts with
  | None => Ok (dict_usage o)
  | Some args =>
    let fname :=
      match operands with
      | [] => if negb (stdin_isatty w) then Some "-" else None
      | operand :: _ => Some operand
      end in
    match fname with
    | None => Ok (dict_usage o)
    | Some fname =>
      out ← write_dict md5 w fname args o;
      match out with
      | Returned o => Ok (0, o)
      | Exited status o => Ok (status, o)
      end
    end
  end.

(** ** The record line, as the specification writes it *)

(** The bare form of a name: without a leading chr. *)
Definition bare_name (name : string) : string :=
  if String.prefix "chr" name then str_advance 3 name else name.

(** The derived alias: chr removed when it was there, prepended when not. *)
Definition alias_base (name : string) : string :=
  if String.prefix "chr" name then str_advance 3 name else "chr" +:+ name.

Definition mito_extras (name : string) : string :=
  if String.eqb (bare_name name) "M" then ",chrMT,MT"
  else if String.eqb (bare_name name) "MT" then ",chrM,M"
  else "".

Definition AN_field (args : args_t) (name : string) : string :=
  if alias args then TAB +:+ "AN:" +:+ alias_base name +:+ mito_extras name else "".

Definition UR_field (w : world) (fn : string) (args : args_t) : string :=
  match uri args with
  | Some u => TAB +:+ "UR:" +:+ u
  | None =>
    if String.eqb fn "-" then "" else TAB +:+ "UR:file://" +:+ fmt_s (realpath w fn)
  end.

Definition AS_field (args : args_t) : string :=
  match assembly args with
  | Some a => TAB +:+ "AS:" +:+ a
  | None => ""
  end.

Definition SP_field (args : args_t) : string :=
  match species args with
  | Some s => TAB +:+ "SP:" +:+ s
  | None => ""
  end.

Definition SQ_line (w : world) (fn : string) (args : args_t) (seq : kseq_t) : string :=
  "@SQ" +:+ TAB +:+ "SN:" +:+ seq_name seq
  +:+ TAB +:+ "LN:" +:+ fmt_d (Z.of_nat (length (retained (seq_seq seq))))
  +:+ TAB +:+ "M5:" +:+ hts_md5_hex (MD5.md5 (normalized (seq_seq seq)))
  +:+ AN_field args (seq_name seq) +:+ UR_field w fn args
  +:+ AS_field args +:+ SP_field args +:+ NL.

Fixpoint concat_lines (lines : list string) : string :=
  match lines with
  | [] => ""
  | l :: rest => l +:+ concat_lines rest
  end.

(** The number of lines of a text: its newline characters. *)
Fixpoint count_lines (text : string) : nat :=
  match text with
  | EmptyString => 0%nat
  | String c rest => ((if Ascii.eqb c "010" then 1 else 0) + count_lines rest)%nat
  end.

Definition empty_io : io := IO "" "" ∅.

(** A buffer that the [int] counters of the loop can index. *)
Definition fits (s : list ascii) : Prop := (Z.of_nat (length s) <= INT_MAX)%Z.

(** The records for which the body of the loop runs: those ahead of the
    first one that [kseq_read] returns a negative value with. *)
Fixpoint processed (records : list kseq_t) : list kseq_t :=
  match records with
  | [] => []
  | seq :: rest => if (0 <=? kseq_return seq)%Z then seq :: processed rest else []
  end.

(** The world in which every input ends with the return value [- final]. *)
Definition set_final (final : positive) (fp : kstream) : kstream :=
  Kstream (ks_records fp) final.

Definition with_final (final : positive) (w : world) : world :=
  World (fun fn => set_final final <$> gzopen w fn)
        (set_final final <$> gzdopen_stdin w)
        (fopen_w w) (realpath w) (stdin_isatty w) (char_signed w).

(** ** Inputs used in the examples *)

(** A sequence of 2^31 letters, one byte longer than [INT_MAX]: [kseq_read]
    returns a negative value with it. *)
Definition big_sequence : list ascii := replicate (Z.to_nat 2147483648) "A"%char.

(** A sequence of 2^32 + 8 letters: [kseq_read] returns 8 with it. *)
Definition huge_sequence : list ascii := replicate (Z.to_nat 4294967304) "A"%char.

(** A sequence of 2^32 blanks: [kseq_read] returns 0 with it. *)
Definition huge_blank : list ascii := replicate (Z.to_nat 4294967296) " "%char.

(** The records of [>chr1\nACGTacgt\n>chr2\nacgtACGT\n]. *)
Definition chr1 : kseq_t := Kseq "chr1" (bytes_of_string "ACGTacgt").
Definition chr2 : kseq_t := Kseq "chr2" (bytes_of_string "acgtACGT").

(** A file ref.fa with these two records, read to its end ([final = 1]) or
    up to a read failure ([final = 3]); nothing on standard input. *)
Definition ref_world (final : positive) : world :=
  World (fun fn => if String.eqb fn "ref.fa"
                   then Some (Kstream [chr1; chr2] final) else None)
        None
        (fun _ => true)
        (fun fn => if String.eqb fn "ref.fa" then Some "/data/ref.fa" else None)
        false true.

(** Options -A -H -a GRCh38 -s "Homo sapiens". *)
Definition annotated_args : args_t :=
  Args None None (Some "GRCh38") (Some "Homo sapiens") None true false.

(** An input without records. *)
Definition empty_world : world :=
  World (fun _ => Some (Kstream [] 1)) None (fun _ => true) (fun _ => None) true true.

(** The same two records on standard input, and a file named "-" that
    holds something else. *)
Definition stdin_world : world :=
  World (fun fn => if String.eqb fn "-"
                   then Some (Kstream [chr2] 1) else None)
        (Some (Kstream [chr1; chr2] 1))
        (fun _ => true)
        (fun fn => Some ("/data/" +:+ fn))
        false true.
(** ** Options, as [dict_main] reads them *)

(** The option characters with a case of their own in the switch of lines
    157-167 that does not return. *)
Definition known_option (c : ascii) : bool :=
  Ascii.eqb c "A" || Ascii.eqb c "a" || Ascii.eqb c "s" || Ascii.eqb c "u"
  || Ascii.eqb c "o" || Ascii.eqb c "H".

Definition has_option (c : ascii) (opts : list (ascii * option string)) : bool :=
  existsb (fun p => Ascii.eqb (fst p) c) opts.

(** [optarg] of the last occurrence of the option [c], [init] without one. *)
Definition last_optarg (c : ascii) (opts : list (ascii * option string))
    (init : option string) : option string :=
  fold_left (fun acc p => if Ascii.eqb (fst p) c then snd p else acc) opts init.

(** A byte outside the range 0x21..0x7E. *)
Definition is_blank (c : ascii) : Prop := byte_val c < 33 \/ 126 < byte_val c.

(** The file ref.fa of [ref_world] where no file can be opened for writing. *)
Definition locked_world : world :=
  World (gzopen (ref_world 1)) None (fun _ => false) (realpath (ref_world 1))
        false true.

(** A record whose sequence is a blank and a line feed. *)
Definition blank_record : kseq_t :=
  Kseq "gap" [" "%char; "010"%char].

(** A file big.fa whose first record has the sequence [big_sequence], and a
    file huge.fa whose only record has the sequence [huge_sequence]. *)
Definition big_world : world :=
  World (fun fn => if String.eqb fn "big.fa"
                   then Some (Kstream [Kseq "big" big_sequence; chr1] 1) else None)
        None (fun _ => true) (fun fn => Some ("/data/" +:+ fn)) false true.

Definition huge_world : world :=
  World (fun fn => if String.eqb fn "huge.fa"
                   then Some (Kstream [Kseq "huge" huge_sequence] 1) else None)
        None (fun _ => true) (fun fn => Some ("/data/" +:+ fn)) false true.

(** The input /dev/stdin when standard input is a pipe: it can be opened,
    and [realpath] cannot resolve it. *)
Definition pipe_world : world :=
  World (fun fn => if String.eqb fn "/dev/stdin"
                   then Some (Kstream [chr1] 1) else None)
        (Some (Kstream [chr1] 1)) (fun _ => true) (fun _ => None) false true.


(** * Properties *)

(** ** Bytes *)

Local Close Scope string_scope.
Local Open Scope Z_scope.

Lemma byte_val_range (c : ascii) : 0 <= byte_val c < 256.
Proof.
  unfold byte_val. pose proof (N_ascii_bounded c). lia.
Qed.

Lemma byte_of_val (c : ascii) : byte_of (byte_val c) = c.
Proof.
  unfold byte_of. rewrite Z.mod_small by apply byte_val_range.
  unfold byte_val. rewrite N2Z.id. apply ascii_N_embedding.
Qed.

Lemma byte_val_of (z : Z) : 0 <= z < 256 -> byte_val (byte_of z) = z.
Proof.
  intros Hz. unfold byte_val, byte_of. rewrite Z.mod_small by lia.
  rewrite N_ascii_embedding by lia. lia.
Qed.

Ltac leb_cases :=
  repeat match goal with
         | |- context [?a <=? ?b] => destruct (Z.leb_spec a b)
         | |- context [?a <? ?b] => destruct (Z.ltb_spec a b)
         | H : context [?a <=? ?b] |- _ => destruct (Z.leb_spec a b)
         end;
  simpl; try reflexivity; try (exfalso; lia).

(** The test of line 77 does not depend on the signedness of [char]. *)
Lemma graph_test (sgn : bool) (c : ascii) :
  (33 <=? char_val sgn c) && (char_val sgn c <=? 126) = is_graph c.
Proof.
  unfold char_val, is_graph. pose proof (byte_val_range c).
  destruct sgn; simpl; leb_cases.
Qed.

(** What line 78 stores is the case-folded byte. *)
Lemma store_upper (sgn : bool) (c : ascii) :
  is_graph c = true -> byte_of (toupper (char_val sgn c)) = fold_upper c.
Proof.
  unfold is_graph, char_val, toupper, fold_upper. pose proof (byte_val_range c).
  intros Hg. apply andb_true_iff in Hg as [H1%Z.leb_le H2%Z.leb_le].
  replace (sgn && (128 <=? byte_val c)) with false
    by (destruct sgn; simpl; leb_cases).
  destruct ((97 <=? byte_val c) && (byte_val c <=? 122)); [reflexivity|].
  apply byte_of_val.
Qed.

(** ** The normalisation loop *)

Lemma retained_cons (c : ascii) (s : list ascii) :
  retained (c :: s) = if is_graph c then c :: retained s else retained s.
Proof. reflexivity. Qed.

Lemma normalized_cons (c : ascii) (s : list ascii) :
  normalized (c :: s)
  = if is_graph c then fold_upper c :: normalized s else normalized s.
Proof. unfold normalized. rewrite retained_cons. destruct (is_graph c); reflexivity. Qed.

Lemma size_t_of_nat_index (n : nat) :
  Z.of_nat n <= INT_MAX -> size_t_of_int (Z.of_nat n) = Z.of_nat n.
Proof. unfold size_t_of_int, INT_MAX. intros. apply Z.mod_small. lia. Qed.

Lemma int_incr_ok (n : nat) :
  Z.of_nat n < INT_MAX -> int_incr (Z.of_nat n) = Ok (Z.of_nat (S n)).
Proof.
  intros Hn. unfold int_incr. destruct (Z.ltb_spec (Z.of_nat n) INT_MAX); [|lia].
  f_equal. lia.
Qed.

Lemma int_incr_undef (x : Z) : INT_MAX <= x -> int_incr x = Undef.
Proof.
  intros Hx. unfold int_incr. destruct (Z.ltb_spec x INT_MAX); [lia|reflexivity].
Qed.

(** The invariant of the loop: with [i = n] and [k = m <= n], the first [m]
    bytes of the buffer are settled, the bytes from [n] on are still those
    of the input, and the loop ends with the retained, case-folded bytes of
    that rest appended to the settled ones. *)
Lemma normalize_from_ok (sgn : bool) (fuel : nat) :
  forall (s : list ascii) (n m : nat),
    (m <= n)%nat -> (n <= length s)%nat ->
    Z.of_nat (length s) <= INT_MAX ->
    (length s - n < fuel)%nat ->
    exists s',
      normalize_from fuel sgn s (Z.of_nat n) (Z.of_nat m)
      = Ok (s', Z.of_nat (m + length (retained (drop n s))))
      /\ length s' = length s
      /\ take (m + length (retained (drop n s))) s'
         = take m s ++ normalized (drop n s).
Proof.
  induction fuel as [|fuel IH]; intros s n m Hmn Hn Hmax Hfuel; [lia|].
  cbn [normalize_from]. rewrite size_t_of_nat_index by lia.
  destruct (Z.ltb_spec (Z.of_nat n) (Z.of_nat (length s))) as [Hlt|Hge].
  - rewrite Nat2Z.id.
    destruct (lookup_lt_is_Some_2 s n ltac:(lia)) as [c Hc].
    rewrite Hc. cbn zeta. rewrite graph_test, Nat2Z.id.
    rewrite (drop_S _ _ _ Hc), retained_cons, normalized_cons.
    destruct (is_graph c) eqn:Hg.
    + rewrite (int_incr_ok m) by lia. cbn [mbind res_bind].
      rewrite (int_incr_ok n) by lia. cbn [mbind res_bind].
      rewrite (store_upper _ _ Hg).
      destruct (IH (<[m := fold_upper c]> s) (S n) (S m)) as (s' & Hrun & Hlen & Htake);
        rewrite ?length_insert; try lia.
      rewrite drop_insert_lt in Hrun, Htake by lia.
      exists s'. cbn [length]. rewrite Nat.add_succ_r.
      split; [exact Hrun|]. split; [by rewrite Hlen, length_insert|].
      cbn [Nat.add] in Htake. rewrite Htake.
      rewrite (take_S_r _ _ (fold_upper c))
        by (apply list_lookup_insert_eq; lia).
      rewrite take_insert_ge by lia. by rewrite <- app_assoc.
    + cbn [mbind res_bind].
      rewrite (int_incr_ok n) by lia. cbn [mbind res_bind].
      destruct (IH s (S n) m) as (s' & Hrun & Hlen & Htake); try lia.
      exists s'. auto.
  - assert (n = length s) as -> by lia.
    rewrite drop_all. exists s. cbn. rewrite Nat.add_0_r, app_nil_r. auto.
Qed.

(** With [seq.l] beyond [INT_MAX] the counter [i] overflows before the loop
    test can fail. *)
Lemma normalize_from_overflow (sgn : bool) (fuel : nat) :
  forall (s : list ascii) (n m : nat),
    (m <= n)%nat -> Z.of_nat n <= INT_MAX ->
    INT_MAX < Z.of_nat (length s) ->
    INT_MAX - Z.of_nat n < Z.of_nat fuel ->
    normalize_from fuel sgn s (Z.of_nat n) (Z.of_nat m) = Undef.
Proof.
  induction fuel as [|fuel IH]; intros s n m Hmn Hn Hlen Hfuel; [lia|].
  cbn [normalize_from]. rewrite size_t_of_nat_index by lia.
  destruct (Z.ltb_spec (Z.of_nat n) (Z.of_nat (length s))) as [Hlt|Hge]; [|lia].
  rewrite Nat2Z.id.
  destruct (lookup_lt_is_Some_2 s n ltac:(lia)) as [c Hc].
  rewrite Hc. cbn zeta. rewrite graph_test.
  assert (Hi : Z.of_nat n < INT_MAX ->
               forall s1 m1, length s1 = length s -> (m1 <= S n)%nat ->
               normalize_from fuel sgn s1 (Z.of_nat (S n)) (Z.of_nat m1) = Undef).
  { intros Hn' s1 m1 Hs1 Hm1. apply IH; rewrite ?Hs1; lia. }
  destruct (is_graph c).
  - destruct (Z.lt_ge_cases (Z.of_nat m) INT_MAX) as [Hm|Hm];
      [rewrite (int_incr_ok m Hm)|by rewrite (int_incr_undef _ Hm)].
    cbn [mbind res_bind].
    destruct (Z.lt_ge_cases (Z.of_nat n) INT_MAX) as [Hn'|Hn'];
      [rewrite (int_incr_ok n Hn')|by rewrite (int_incr_undef _ Hn')].
    cbn [mbind res_bind].
    apply Hi; rewrite ?length_insert; auto with lia.
  - cbn [mbind res_bind].
    destruct (Z.lt_ge_cases (Z.of_nat n) INT_MAX) as [Hn'|Hn'];
      [rewrite (int_incr_ok n Hn')|by rewrite (int_incr_undef _ Hn')].
    cbn [mbind res_bind].
    apply Hi; auto with lia.
Qed.

Lemma normalize_ok (sgn : bool) (s : list ascii) :
  Z.of_nat (length s) <= INT_MAX ->
  exists s',
    normalize sgn s = Ok (s', Z.of_nat (length (retained s)))
    /\ length s' = length s
    /\ take (length (retained s)) s' = normalized s.
Proof.
  intros Hmax.
  destruct (normalize_from_ok sgn (S (length s)) s 0 0) as (s' & Hrun & Hlen & Htake);
    try lia.
  exists s'. split; [exact Hrun|]. split; [exact Hlen|exact Htake].
Qed.

Lemma normalize_overflow (sgn : bool) (s : list ascii) :
  INT_MAX < Z.of_nat (length s) -> normalize sgn s = Undef.
Proof.
  intros Hlen. unfold normalize.
  apply (normalize_from_overflow sgn (S (length s)) s 0 0); unfold INT_MAX in *; lia.
Qed.

(** ** The digest and its rendering *)

Lemma md5_length (msg : list ascii) : length (MD5.md5 msg) = 16%nat.
Proof.
  unfold MD5.md5. cbv zeta. rewrite length_fmap, !length_app. reflexivity.
Qed.

Lemma string_of_list_length (l : list ascii) :
  String.length (string_of_list_ascii l) = length l.
Proof. induction l as [|c l IH]; cbn; [reflexivity|by rewrite IH]. Qed.

Lemma hts_md5_hex_length (d : list ascii) :
  String.length (hts_md5_hex d) = (2 * length d)%nat.
Proof.
  unfold hts_md5_hex. rewrite string_of_list_length.
  induction d as [|c d IH]; cbn [flat_map length app]; [reflexivity|].
  rewrite IH. lia.
Qed.

Lemma hex_digit_lower (n : Z) : 0 <= n < 16 -> is_lower_hex (hex_digit n) = true.
Proof.
  intros Hn. unfold is_lower_hex, hex_digit.
  destruct (Z.ltb_spec n 10); rewrite byte_val_of by lia; leb_cases.
Qed.

Lemma hts_md5_hex_lower (d : list ascii) :
  forallb is_lower_hex (list_ascii_of_string (hts_md5_hex d)) = true.
Proof.
  unfold hts_md5_hex. rewrite list_ascii_of_string_of_list_ascii.
  induction d as [|c d IH]; cbn [flat_map forallb app]; [reflexivity|].
  pose proof (byte_val_range c).
  rewrite !hex_digit_lower, IH; [reflexivity| |].
  - apply Z.mod_pos_bound. lia.
  - split; [apply Z.div_pos; lia|apply Z.div_lt_upper_bound; lia].
Qed.

(** ** Normalisation as the specification states it *)


Lemma normalized_length (s : list ascii) : length (normalized s) = length (retained s).
Proof. unfold normalized. apply length_fmap. Qed.


Lemma fold_upper_idem (c : ascii) : fold_upper (fold_upper c) = fold_upper c.
Proof.
  unfold fold_upper at 2 3. pose proof (byte_val_range c).
  destruct (Z.leb_spec 97 (byte_val c)); destruct (Z.leb_spec (byte_val c) 122);
    cbn [andb]; unfold fold_upper; rewrite ?byte_val_of by lia; leb_cases.
Qed.



(** ** The digest step *)

Lemma normalize_fits (sgn : bool) (s s' : list ascii) (k : Z) :
  normalize sgn s = Ok (s', k) -> Z.of_nat (length s) <= INT_MAX.
Proof.
  intros Hrun. destruct (Z.le_gt_cases (Z.of_nat (length s)) INT_MAX) as [|Hbig];
    [assumption|].
  rewrite normalize_overflow in Hrun by lia. discriminate.
Qed.

(** The iteration budget of [normalize] is never used up. *)
Lemma normalize_has_fuel (sgn : bool) (s : list ascii) :
  (exists s' k, normalize sgn s = Ok (s', k)) \/ normalize sgn s = Undef.
Proof.
  destruct (Z.le_gt_cases (Z.of_nat (length s)) INT_MAX) as [Hfit|Hbig].
  - left. destruct (normalize_ok sgn s Hfit) as (s' & Hrun & _). eauto.
  - right. apply normalize_overflow. lia.
Qed.

Lemma seq_digest_ok (sgn : bool) (md5 : hts_md5_context) (s : list ascii) :
  Z.of_nat (length s) <= INT_MAX ->
  exists s',
    seq_digest sgn md5 s
    = Ok (s', normalized s, Z.of_nat (length (retained s)),
          hts_md5_hex (MD5.md5 (normalized s))).
Proof.
  intros Hmax. destruct (normalize_ok sgn s Hmax) as (s' & Hrun & _ & Htake).
  exists s'. unfold seq_digest. rewrite Hrun. cbn [mbind res_bind].
  unfold hts_md5_final, hts_md5_update, hts_md5_reset.
  by rewrite Nat2Z.id, Htake.
Qed.

Lemma digest_ok (sgn : bool) (md5 : hts_md5_context) (s : list ascii) :
  Z.of_nat (length s) <= INT_MAX ->
  digest sgn md5 s
  = Ok (Z.of_nat (length (retained s)), hts_md5_hex (MD5.md5 (normalized s))).
Proof.
  intros Hmax. destruct (seq_digest_ok sgn md5 s Hmax) as (s' & Hrun).
  unfold digest. by rewrite Hrun.
Qed.

Lemma digest_overflow (sgn : bool) (md5 : hts_md5_context) (s : list ascii) :
  INT_MAX < Z.of_nat (length s) -> digest sgn md5 s = Undef.
Proof.
  intros Hbig. unfold digest, seq_digest. by rewrite normalize_overflow.
Qed.

Lemma retained_replicate (n : nat) (c : ascii) :
  retained (replicate n c) = if is_graph c then replicate n c else [].
Proof.
  induction n as [|n IH]; cbn [replicate]; [by destruct (is_graph c)|].
  rewrite retained_cons, IH. by destruct (is_graph c).
Qed.

Lemma retained_letters (n : nat) :
  retained (replicate n "A"%char) = replicate n "A"%char.
Proof. by rewrite retained_replicate. Qed.

(** Sequences of [n] letters and of [n] blanks, for [n] beyond [INT_MAX]:
    the letters are all retained, the blanks are all dropped, and the digest
    step overflows on both. *)
Lemma letters_overflow (n : nat) (sgn : bool) (md5 : hts_md5_context) :
  INT_MAX < Z.of_nat n ->
  Z.of_nat (length (retained (replicate n "A"%char))) = Z.of_nat n
  /\ digest sgn md5 (replicate n "A"%char) = Undef.
Proof.
  intros Hn. split.
  - by rewrite retained_letters, length_replicate.
  - apply digest_overflow. by rewrite length_replicate.
Qed.

Lemma retained_blanks (n : nat) : retained (replicate n " "%char) = [].
Proof. by rewrite retained_replicate. Qed.

Lemma blanks_overflow (n : nat) (sgn : bool) (md5 : hts_md5_context) :
  INT_MAX < Z.of_nat n ->
  normalized (replicate n " "%char) = []
  /\ digest sgn md5 (replicate n " "%char) = Undef.
Proof.
  intros Hn. split.
  - unfold normalized. by rewrite retained_blanks.
  - apply digest_overflow. by rewrite length_replicate.
Qed.

(** What [kseq_read] returns with a record of [n] bytes. *)
Lemma kseq_return_replicate (name : string) (n : nat) (c : ascii) (len : Z) :
  Z.of_nat n = len ->
  kseq_return (Kseq name (replicate n c)) = int_of_size_t len.
Proof.
  intros Hn. unfold kseq_return. cbn [seq_seq]. by rewrite length_replicate, Hn.
Qed.

(** A record of [n] letters, [n] above [INT_MAX]: what [kseq_read] returns
    with it, how many bytes its normalisation keeps, and the digest step. *)
Lemma letters_wrapped (name : string) (n : nat) (len l : Z) :
  Z.of_nat n = len ->
  (INT_MAX <? len) = true ->
  int_of_size_t len = l ->
  kseq_return (Kseq name (replicate n "A"%char)) = l
  /\ Z.of_nat (length (retained (replicate n "A"%char))) = len
  /\ digest true hts_md5_init (replicate n "A"%char) = Undef.
Proof.
  intros Hn Hbig%Z.ltb_lt Hl. rewrite <- Hn in Hbig.
  destruct (letters_overflow n true hts_md5_init Hbig) as [Hkept Hrun].
  split; [|split].
  - rewrite <- Hl. by apply kseq_return_replicate.
  - by rewrite Hkept.
  - exact Hrun.
Qed.

(** The same for a record of [n] blanks. *)
Lemma blanks_wrapped (name : string) (n : nat) (len l : Z) :
  Z.of_nat n = len ->
  (INT_MAX <? len) = true ->
  int_of_size_t len = l ->
  digest true hts_md5_init [] = Ok (0, "d41d8cd98f00b204e9800998ecf8427e"%string) ->
  kseq_return (Kseq name (replicate n " "%char)) = l
  /\ normalized (replicate n " "%char) = normalized []
  /\ digest true hts_md5_init (replicate n " "%char) = Undef
  /\ digest true hts_md5_init []
     = Ok (0, "d41d8cd98f00b204e9800998ecf8427e"%string).
Proof.
  intros Hn Hbig%Z.ltb_lt Hl Hempty. rewrite <- Hn in Hbig.
  destruct (blanks_overflow n true hts_md5_init Hbig) as [Hnone Hrun].
  split; [|split; [|split]].
  - rewrite <- Hl. by apply kseq_return_replicate.
  - exact Hnone.
  - exact Hrun.
  - exact Hempty.
Qed.

(** The lengths of the long sequences. *)
Lemma length_big_sequence : Z.of_nat (length big_sequence) = 2147483648.
Proof.
  unfold big_sequence.
  exact (eq_trans
           (f_equal Z.of_nat (@length_replicate ascii (Z.to_nat 2147483648) "A"%char))
           (Z2Nat.id 2147483648 (Zle_bool_imp_le 0 2147483648 eq_refl))).
Qed.

Lemma length_huge_sequence : Z.of_nat (length huge_sequence) = 4294967304.
Proof.
  unfold huge_sequence.
  exact (eq_trans
           (f_equal Z.of_nat (@length_replicate ascii (Z.to_nat 4294967304) "A"%char))
           (Z2Nat.id 4294967304 (Zle_bool_imp_le 0 4294967304 eq_refl))).
Qed.

Lemma kseq_return_length (name : string) (s : list ascii) (len l : Z) :
  Z.of_nat (length s) = len -> int_of_size_t len = l -> kseq_return (Kseq name s) = l.
Proof. intros Hs Hl. unfold kseq_return. cbn [seq_seq]. by rewrite Hs. Qed.

Lemma kseq_return_fits (seq : kseq_t) :
  fits (seq_seq seq) -> kseq_return seq = Z.of_nat (length (seq_seq seq)).
Proof.
  unfold fits, kseq_return, int_of_size_t, INT_MAX. intros Hfit.
  rewrite Z.mod_small by lia. lia.
Qed.

(** C1 (as amended): for every input byte sequence of at most 2^31 - 1
    bytes, and whatever the accumulator held before, the digest step yields
    as length the number of bytes with a value in 0x21..0x7E, and as digest
    the hexadecimal rendering of the MD5 of exactly those bytes folded to
    upper case; the rendering has exactly 32 characters, all of them
    lowercase hexadecimal digits. *)
Theorem digest_within_int_range (sgn : bool) (md5 : hts_md5_context) (s : list ascii) :
  Z.of_nat (length s) <= INT_MAX ->
  digest sgn md5 s
  = Ok (Z.of_nat (length (retained s)), hts_md5_hex (MD5.md5 (normalized s)))
  /\ String.length (hts_md5_hex (MD5.md5 (normalized s))) = 32%nat
  /\ forallb is_lower_hex
       (list_ascii_of_string (hts_md5_hex (MD5.md5 (normalized s)))) = true.
Proof.
  intros Hmax. split; [by apply digest_ok|]. split.
  - by rewrite hts_md5_hex_length, md5_length.
  - apply hts_md5_hex_lower.
Qed.

Lemma digest_within_int_range_witness :
  Z.of_nat (length (bytes_of_string "ac gt Nn")) <= INT_MAX
  /\ digest true (bytes_of_string "left over") (bytes_of_string "ac gt Nn")
     = Ok (6, "247326f3ddab5b675f000e844a6dde4b"%string).
Proof.
  split; [vm_compute; discriminate|].
  destruct (digest_within_int_range true (bytes_of_string "left over")
              (bytes_of_string "ac gt Nn")) as [Hrun _];
    [vm_compute; discriminate|].
  rewrite Hrun. vm_compute. reflexivity.
Defined.

(** C1, the claim as stated, fails: a record of 2^32 + 8 letters is an
    input byte sequence that reaches the digest step ([kseq_read] returns 8
    with it, which is not negative); all its bytes are retained, so the
    claim promises the length 4294967304, but the counter [i] overflows and
    the step has no defined result. *)
Lemma digest_overflow_counterexample :
  kseq_return (Kseq "huge" huge_sequence) = 8
  /\ Z.of_nat (length (retained huge_sequence)) = 4294967304
  /\ digest true hts_md5_init huge_sequence = Undef.
Proof.
  unfold huge_sequence.
  exact (letters_wrapped "huge" (Z.to_nat 4294967304) 4294967304 8
           (Z2Nat.id 4294967304 (Zle_bool_imp_le 0 4294967304 eq_refl))
           eq_refl eq_refl).
Qed.

(** C7 (as amended): on sequences of at most 2^31 - 1 bytes the digest step
    is a function of the normalised content alone.  The accumulator left by
    an earlier record and the signedness of [char] do not matter, the same
    bytes give the same result, and two sequences whose normalised bytes
    coincide get the same length and the same digest.  So the input
    [>chr1\nACGTacgt\n>chr2\nacgtACGT\n] gives two record lines with the
    same LN:8 and the same M5, which differ in SN only. *)
Theorem digest_depends_on_normalized :
  (forall (sgn1 sgn2 : bool) (md5a md5b : hts_md5_context) (s1 s2 : list ascii),
     fits s1 -> fits s2 -> normalized s1 = normalized s2 ->
     digest sgn1 md5a s1 = digest sgn2 md5b s2
     /\ exists k hex, digest sgn1 md5a s1 = Ok (k, hex))
  /\ write_dict (Some hts_md5_init) (ref_world 1) "ref.fa" default_args empty_io
     = Ok (Returned
             (IO ("@HD" +:+ TAB +:+ "VN:1.0" +:+ TAB +:+ "SO:unsorted" +:+ NL
                  +:+ "@SQ" +:+ TAB +:+ "SN:chr1" +:+ TAB +:+ "LN:8" +:+ TAB
                  +:+ "M5:cc0af3a4fedb18378b4b57b98068e69f" +:+ TAB
                  +:+ "UR:file:///data/ref.fa" +:+ NL
                  +:+ "@SQ" +:+ TAB +:+ "SN:chr2" +:+ TAB +:+ "LN:8" +:+ TAB
                  +:+ "M5:cc0af3a4fedb18378b4b57b98068e69f" +:+ TAB
                  +:+ "UR:file:///data/ref.fa" +:+ NL)
                 "" ∅)).
Proof.
  split; [|vm_compute; reflexivity].
  intros sgn1 sgn2 md5a md5b s1 s2 H1 H2 Hsame.
  rewrite (digest_ok sgn1 md5a _ H1), (digest_ok sgn2 md5b _ H2).
  rewrite <- !normalized_length, Hsame. eauto.
Qed.

Lemma digest_depends_on_normalized_witness :
  normalized (seq_seq chr1) = normalized (seq_seq chr2)
  /\ digest true hts_md5_init (seq_seq chr1)
     = digest false (bytes_of_string "left over") (seq_seq chr2).
Proof.
  split; [vm_compute; reflexivity|].
  apply (proj1 digest_depends_on_normalized true false hts_md5_init
           (bytes_of_string "left over") (seq_seq chr1) (seq_seq chr2)).
  - vm_compute. discriminate.
  - vm_compute. discriminate.
  - vm_compute. reflexivity.
Defined.

(** C7, the claim as stated, fails: a record of 2^32 blanks reaches the
    digest step ([kseq_read] returns 0 with it) and has the normalised bytes
    of the empty sequence, none; the empty sequence gets the length 0 and
    the digest of the empty message, the blanks overflow the counter [i]. *)
Lemma blanks_counterexample :
  kseq_return (Kseq "blank" huge_blank) = 0
  /\ normalized huge_blank = normalized []
  /\ digest true hts_md5_init huge_blank = Undef
  /\ digest true hts_md5_init []
     = Ok (0, "d41d8cd98f00b204e9800998ecf8427e"%string).
Proof.
  unfold huge_blank.
  exact (blanks_wrapped "blank" (Z.to_nat 4294967296) 4294967296 0
           (Z2Nat.id 4294967296 (Zle_bool_imp_le 0 4294967296 eq_refl))
           eq_refl eq_refl eq_refl).
Qed.



(** ** Strings *)

Lemma append_nil_r (s : string) : s +:+ "" = s.
Proof.
  induction s as [|c s IH]; [reflexivity|].
  change (String c (s +:+ "") = String c s). by rewrite IH.
Qed.

Lemma append_assoc (a b c : string) : (a +:+ b) +:+ c = a +:+ (b +:+ c).
Proof.
  induction a as [|x a IH]; [reflexivity|].
  change (String x ((a +:+ b) +:+ c) = String x (a +:+ (b +:+ c))). by rewrite IH.
Qed.

Lemma string_compare_refl (s : string) : String.compare s s = Eq.
Proof.
  induction s as [|c s IH]; [reflexivity|].
  cbn [String.compare]. unfold Ascii.compare. by rewrite N.compare_refl.
Qed.

Lemma strcmp_eqb (a b : string) : (strcmp a b =? 0) = String.eqb a b.
Proof.
  unfold strcmp. destruct (String.eqb_spec a b) as [->|Hne].
  - by rewrite string_compare_refl.
  - destruct (String.compare a b) eqn:Hcmp; try reflexivity.
    by apply String.compare_eq_iff in Hcmp.
Qed.

Lemma strncmp_chr (name : string) :
  (strncmp name "chr" 3 =? 0) = String.prefix "chr" name.
Proof.
  unfold strncmp. rewrite strcmp_eqb.
  change (substring 0 3 "chr") with "chr"%string.
  apply eq_true_iff_eq. rewrite String.eqb_eq, prefix_correct. reflexivity.
Qed.

Lemma prefix_advance (p s : string) :
  String.prefix p s = true -> s = p +:+ str_advance (String.length p) s.
Proof.
  revert s. induction p as [|a p IH]; intros s Hp; [reflexivity|].
  destruct s as [|b s]; [discriminate|]. cbn in Hp.
  destruct (ascii_dec a b) as [->|]; [|discriminate].
  change (String b s = String b (p +:+ str_advance (String.length p) s)).
  f_equal. by apply IH.
Qed.

(** ** Writing *)

Lemma fprintf_nil (out : FILE) (o : io) : fprintf out "" o = o.
Proof.
  destruct o as [so se fs], out as [| |path]; cbn; rewrite ?append_nil_r;
    try reflexivity.
  f_equal. apply alter_id. intros c _. apply append_nil_r.
Qed.

Lemma fprintf_app (out : FILE) (a b : string) (o : io) :
  fprintf out b (fprintf out a o) = fprintf out (a +:+ b) o.
Proof.
  destruct o as [so se fs], out as [| |path]; cbn; rewrite ?append_assoc;
    try reflexivity.
  f_equal. apply map_eq. intros p.
  destruct (decide (path = p)) as [->|Hne].
  - rewrite !lookup_alter_eq. destruct (fs !! p); cbn; by rewrite ?append_assoc.
  - by rewrite !lookup_alter_ne.
Qed.

Lemma write_alias_field (out : FILE) (seq : kseq_t) (o : io) :
  write_alias out seq o
  = fprintf out (TAB +:+ "AN:" +:+ alias_base (seq_name seq)
                 +:+ mito_extras (seq_name seq)) o.
Proof.
  unfold write_alias, alias_base, mito_extras, bare_name.
  rewrite strncmp_chr.
  destruct (String.prefix "chr" (seq_name seq)); rewrite !strcmp_eqb.
  - destruct (String.eqb _ "M"); [|destruct (String.eqb _ "MT")];
      rewrite ?fprintf_app, ?append_assoc, ?append_nil_r; reflexivity.
  - destruct (String.eqb _ "M"); [|destruct (String.eqb _ "MT")];
      rewrite ?fprintf_app, ?append_assoc, ?append_nil_r; reflexivity.
Qed.

Lemma write_uri_field (w : world) (fn : string) (args : args_t) (out : FILE) (o : io) :
  write_uri w fn args out o = fprintf out (UR_field w fn args) o.
Proof.
  unfold write_uri, UR_field. destruct (uri args); [reflexivity|].
  rewrite strcmp_eqb. destruct (String.eqb fn "-"); cbn [negb];
    [by rewrite fprintf_nil|reflexivity].
Qed.

(** For a sequence that fits the counters the body of the loop writes one
    line, the one the specification describes, and leaves the accumulator
    with the bytes it digested. *)
Lemma write_record_line (w : world) (fn : string) (args : args_t) (out : FILE)
    (md5 : hts_md5_context) (seq : kseq_t) (o : io) :
  fits (seq_seq seq) ->
  write_record w fn args out md5 seq o
  = Ok (normalized (seq_seq seq), fprintf out (SQ_line w fn args seq) o).
Proof.
  intros Hfit.
  destruct (seq_digest_ok (char_signed w) md5 _ Hfit) as (s' & Hrun).
  unfold write_record. rewrite Hrun. cbn [mbind res_bind].
  rewrite write_uri_field. f_equal. f_equal.
  replace (if alias args then write_alias out seq _ else _)
    with (fprintf out (AN_field args (seq_name seq))
            (fprintf out ("@SQ" +:+ TAB +:+ "SN:" +:+ seq_name seq +:+ TAB +:+ "LN:"
                          +:+ fmt_d (Z.of_nat (length (retained (seq_seq seq))))
                          +:+ TAB +:+ "M5:"
                          +:+ hts_md5_hex (MD5.md5 (normalized (seq_seq seq)))) o)).
  2:{ unfold AN_field. destruct (alias args);
        [by rewrite write_alias_field|by rewrite fprintf_nil]. }
  replace (match assembly args with Some a => fprintf out (TAB +:+ "AS:" +:+ a) _
                                  | None => _ end)
    with (fprintf out (AS_field args)
            (fprintf out (UR_field w fn args)
               (fprintf out (AN_field args (seq_name seq))
                  (fprintf out ("@SQ" +:+ TAB +:+ "SN:" +:+ seq_name seq +:+ TAB
                                +:+ "LN:"
                                +:+ fmt_d (Z.of_nat (length (retained (seq_seq seq))))
                                +:+ TAB +:+ "M5:"
                                +:+ hts_md5_hex (MD5.md5 (normalized (seq_seq seq)))) o)))).
  2:{ unfold AS_field. destruct (assembly args); [reflexivity|by rewrite fprintf_nil]. }
  replace (match species args with Some s => fprintf out (TAB +:+ "SP:" +:+ s) _
                                 | None => _ end)
    with (fprintf out (SP_field args)
            (fprintf out (AS_field args)
               (fprintf out (UR_field w fn args)
                  (fprintf out (AN_field args (seq_name seq))
                     (fprintf out ("@SQ" +:+ TAB +:+ "SN:" +:+ seq_name seq +:+ TAB
                                   +:+ "LN:"
                                   +:+ fmt_d (Z.of_nat (length (retained (seq_seq seq))))
                                   +:+ TAB +:+ "M5:"
                                   +:+ hts_md5_hex (MD5.md5 (normalized (seq_seq seq)))) o))))).
  2:{ unfold SP_field. destruct (species args); [reflexivity|by rewrite fprintf_nil]. }
  rewrite !fprintf_app. unfold SQ_line. f_equal.
  rewrite !append_assoc. reflexivity.
Qed.

(** ** The loop over the records and the whole of [write_dict] *)

Lemma normalize_from_signedness (fuel : nat) :
  forall (s : list ascii) (i k : Z),
    normalize_from fuel true s i k = normalize_from fuel false s i k.
Proof.
  induction fuel as [|fuel IH]; intros s i k; [reflexivity|].
  cbn [normalize_from]. destruct (_ <? _); [|reflexivity].
  destruct (s !! Z.to_nat i) as [c|]; [|reflexivity].
  cbn zeta. rewrite !graph_test. destruct (is_graph c) eqn:Hg.
  - rewrite !(store_upper _ _ Hg).
    destruct (int_incr k); cbn [mbind res_bind]; try reflexivity.
    destruct (int_incr i); cbn [mbind res_bind]; try reflexivity. apply IH.
  - cbn [mbind res_bind].
    destruct (int_incr i); cbn [mbind res_bind]; try reflexivity. apply IH.
Qed.

Lemma seq_digest_signedness (sgn1 sgn2 : bool) (md5 : hts_md5_context)
    (s : list ascii) :
  seq_digest sgn1 md5 s = seq_digest sgn2 md5 s.
Proof.
  unfold seq_digest, normalize.
  destruct sgn1, sgn2; by rewrite ?normalize_from_signedness.
Qed.

(** The body of the loop does not depend on the signedness of [char], and
    on the world only through what the UR field needs. *)
Lemma write_record_world (w w' : world) (fn : string) (args : args_t) (out : FILE)
    (md5 : hts_md5_context) (seq : kseq_t) (o : io) :
  (forall o', write_uri w' fn args out o' = write_uri w fn args out o') ->
  write_record w' fn args out md5 seq o = write_record w fn args out md5 seq o.
Proof.
  intros Huri. unfold write_record.
  rewrite (seq_digest_signedness (char_signed w') (char_signed w)).
  destruct (seq_digest (char_signed w) md5 (seq_seq seq)) as [[[[s' md5'] k] hex]| |];
    cbn [mbind res_bind]; [|reflexivity..].
  by rewrite Huri.
Qed.

Lemma read_loop_world (w w' : world) (fn : string) (args : args_t) (out : FILE)
    (records : list kseq_t) (final final' : positive) :
  (forall o', write_uri w' fn args out o' = write_uri w fn args out o') ->
  forall (md5 : hts_md5_context) (o : io),
    read_loop w' fn args out md5 records final' o
    = read_loop w fn args out md5 records final o.
Proof.
  intros Huri. induction records as [|seq rest IH]; intros md5 o; [reflexivity|].
  cbn [read_loop kseq_read]. destruct (0 <=? kseq_return seq); [|reflexivity].
  rewrite (write_record_world w w' fn args out md5 seq o Huri).
  destruct (write_record w fn args out md5 seq o) as [[md5' o']| |];
    cbn [mbind res_bind]; [apply IH|reflexivity..].
Qed.

Lemma processed_fits (records : list kseq_t) :
  Forall (fun seq => fits (seq_seq seq)) records -> processed records = records.
Proof.
  induction 1 as [|seq rest Hfit _ IH]; [reflexivity|].
  cbn [processed]. rewrite (kseq_return_fits seq Hfit), IH.
  by destruct (Z.leb_spec 0 (Z.of_nat (length (seq_seq seq)))); [|lia].
Qed.

(** The loop writes the lines of the records it processes, in their order,
    when their sequences fit the counters. *)
Lemma read_loop_lines (w : world) (fn : string) (args : args_t) (out : FILE)
    (final : positive) (records : list kseq_t) :
  Forall (fun seq => fits (seq_seq seq)) (processed records) ->
  forall (md5 : hts_md5_context) (o : io),
  exists md5',
    read_loop w fn args out md5 records final o
    = Ok (md5', fprintf out (concat_lines (SQ_line w fn args <$> processed records)) o).
Proof.
  induction records as [|seq rest IH]; intros Hfit md5 o.
  - exists md5. cbn. by rewrite fprintf_nil.
  - cbn [read_loop kseq_read]. cbn [processed] in Hfit |- *.
    destruct (0 <=? kseq_return seq).
    + apply Forall_cons in Hfit as [Hseq Hrest].
      rewrite (write_record_line _ _ _ _ _ _ _ Hseq). cbn [mbind res_bind].
      destruct (IH Hrest (normalized (seq_seq seq))
                  (fprintf out (SQ_line w fn args seq) o)) as (md5' & ->).
      exists md5'. by rewrite fprintf_app.
    + exists md5. cbn. by rewrite fprintf_nil.
Qed.

(** A record that does not fit the counters and is processed leaves the run
    without a defined result. *)
Lemma read_loop_overflow (w : world) (fn : string) (args : args_t) (out : FILE)
    (md5 : hts_md5_context) (seq : kseq_t) (rest : list kseq_t) (final : positive)
    (o : io) :
  0 <= kseq_return seq ->
  INT_MAX < Z.of_nat (length (seq_seq seq)) ->
  read_loop w fn args out md5 (seq :: rest) final o = Undef.
Proof.
  intros Hl Hbig. cbn [read_loop kseq_read].
  destruct (Z.leb_spec 0 (kseq_return seq)); [|lia].
  unfold write_record, seq_digest. by rewrite normalize_overflow.
Qed.

(** A record that [kseq_read] returns a negative value with ends the loop:
    neither it nor what follows it is processed. *)
Lemma read_loop_negative (w : world) (fn : string) (args : args_t) (out : FILE)
    (md5 : hts_md5_context) (seq : kseq_t) (rest : list kseq_t) (final : positive)
    (o : io) :
  kseq_return seq < 0 ->
  read_loop w fn args out md5 (seq :: rest) final o = Ok (md5, o).
Proof.
  intros Hl. cbn [read_loop kseq_read].
  by destruct (Z.leb_spec 0 (kseq_return seq)); [lia|].
Qed.

(** The text of a dictionary: the header line when it is enabled, then the
    lines of the records that are processed, in the order of the input. *)
Lemma write_dict_text (md5 : hts_md5_context) (w : world) (fn : string)
    (args : args_t) (o : io) (fp : kstream) (out : FILE) (o1 : io) :
  open_input w fn = Some fp ->
  open_output w args o = inr (out, o1) ->
  Forall (fun seq => fits (seq_seq seq))
         (processed (ks_records (first_read w fn args fp))) ->
  write_dict (Some md5) w fn args o
  = Ok (Returned
          (fprintf out
             ((if header args then HD_line else "")
              +:+ concat_lines
                    (SQ_line w fn args
                       <$> processed (ks_records (first_read w fn args fp)))) o1)).
Proof.
  intros Hin Hout Hfit. unfold write_dict. rewrite Hin, Hout. cbv zeta.
  destruct (read_loop_lines w fn args out (ks_final (first_read w fn args fp))
              _ Hfit md5 (if header args then fprintf out HD_line o1 else o1))
    as (md5' & ->).
  cbn [mbind res_bind]. do 2 f_equal.
  destruct (header args); [by rewrite fprintf_app|reflexivity].
Qed.

Lemma open_input_stdin (w : world) : open_input w "-" = gzdopen_stdin w.
Proof. reflexivity. Qed.

Lemma open_input_file (w : world) (fn : string) :
  fn <> "-"%string -> open_input w fn = gzopen w fn.
Proof.
  intros Hfn. unfold open_input. rewrite strcmp_eqb.
  by rewrite (proj2 (String.eqb_neq fn "-") Hfn).
Qed.

Lemma open_input_with_final (final : positive) (w : world) (fn : string) :
  open_input (with_final final w) fn = set_final final <$> open_input w fn.
Proof. unfold open_input. by destruct (negb _). Qed.

Lemma first_read_with_final (final : positive) (w : world) (fn : string)
    (args : args_t) (fp : kstream) :
  ks_records (first_read (with_final final w) fn args (set_final final fp))
  = ks_records (first_read w fn args fp).
Proof.
  unfold first_read. destruct (output_fname args) as [path|]; [|reflexivity].
  change (names_input (with_final final w) path fn) with (names_input w path fn).
  by destruct (names_input w path fn).
Qed.

Lemma write_dict_with_final (final : positive) (md5 : option hts_md5_context)
    (w : world) (fn : string) (args : args_t) (o : io) :
  write_dict md5 (with_final final w) fn args o = write_dict md5 w fn args o.
Proof.
  unfold write_dict. rewrite open_input_with_final.
  destruct (open_input w fn) as [fp|]; [|reflexivity].
  cbn [fmap option_fmap option_map].
  change (open_output (with_final final w) args o) with (open_output w args o).
  destruct (open_output w args o) as [o1|[out o1]]; [reflexivity|].
  destruct md5 as [md5|]; [|reflexivity]. cbv zeta.
  rewrite first_read_with_final.
  by rewrite (read_loop_world w (with_final final w) fn args out _
                (ks_final (first_read w fn args fp))
                (ks_final (first_read (with_final final w) fn args (set_final final fp)))).
Qed.

(** ** The alias field *)

Lemma prefix_append (p s : string) : String.prefix p (p +:+ s) = true.
Proof.
  induction p as [|a p IH]; [by destruct s|].
  change (String.prefix (String a p) (String a (p +:+ s)) = true).
  cbn [String.prefix]. by destruct (ascii_dec a a).
Qed.

Lemma bare_name_eq (name bare : string) :
  String.prefix "chr" bare = false ->
  bare_name name = bare <-> name = bare \/ name = ("chr" +:+ bare)%string.
Proof.
  intros Hbare. unfold bare_name.
  destruct (String.prefix "chr" name) eqn:Hp.
  - pose proof (prefix_advance _ _ Hp) as Hname. cbn [String.length] in Hname.
    split.
    + intros <-. right. exact Hname.
    + intros [->| ->]; [congruence|reflexivity].
  - split; [by left|]. intros [->| ->]; [reflexivity|].
    by rewrite prefix_append in Hp.
Qed.

(** C2: with alias emission enabled the AN field of a record holds one
    derived alias, the name without its leading chr when it has one and with
    chr put in front when it has none; [,chrMT,MT] follows when the bare
    name is M (the names M and chrM), [,chrM,M] when it is MT (the names MT
    and chrMT), and nothing follows for any other name.  So chrM gives
    AN:M,chrMT,MT, MT gives AN:chrMT,chrM,M and 1 gives AN:chr1. *)
Theorem alias_field (out : FILE) (seq : kseq_t) (o : io) :
  let name := seq_name seq in
  write_alias out seq o
  = fprintf out (TAB +:+ "AN:" +:+ alias_base name +:+ mito_extras name) o
  /\ (String.prefix "chr" name = true -> name = ("chr" +:+ alias_base name)%string)
  /\ (String.prefix "chr" name = false -> alias_base name = ("chr" +:+ name)%string)
  /\ (name = "M"%string \/ name = "chrM"%string
      -> bare_name name = "M"%string /\ mito_extras name = ",chrMT,MT"%string)
  /\ (name = "MT"%string \/ name = "chrMT"%string
      -> bare_name name = "MT"%string /\ mito_extras name = ",chrM,M"%string)
  /\ (name <> "M"%string -> name <> "chrM"%string ->
      name <> "MT"%string -> name <> "chrMT"%string ->
      mito_extras name = ""%string)
  /\ (name = "chrM"%string ->
      write_alias out seq o = fprintf out (TAB +:+ "AN:M,chrMT,MT") o)
  /\ (name = "MT"%string ->
      write_alias out seq o = fprintf out (TAB +:+ "AN:chrMT,chrM,M") o)
  /\ (name = "1"%string ->
      write_alias out seq o = fprintf out (TAB +:+ "AN:chr1") o)
  /\ (forall args,
        (if alias args then write_alias out seq o else o)
        = fprintf out (AN_field args name) o).
Proof.
  cbv zeta. split; [apply write_alias_field|].
  split; [|split].
  - intros Hp. unfold alias_base. rewrite Hp. exact (prefix_advance _ _ Hp).
  - intros Hp. unfold alias_base. by rewrite Hp.
  - unfold mito_extras.
    split; [|split; [|split; [|split; [|split; [|split]]]]].
    + intros HM%(bare_name_eq _ "M" eq_refl). by rewrite HM.
    + intros HM%(bare_name_eq _ "MT" eq_refl). by rewrite HM.
    + intros H1 H2 H3 H4.
      destruct (String.eqb_spec (bare_name (seq_name seq)) "M")
        as [HM%(bare_name_eq _ "M" eq_refl)|_]; [tauto|].
      destruct (String.eqb_spec (bare_name (seq_name seq)) "MT")
        as [HM%(bare_name_eq _ "MT" eq_refl)|_]; [tauto|reflexivity].
    + intros Hname. by rewrite write_alias_field, Hname.
    + intros Hname. by rewrite write_alias_field, Hname.
    + intros Hname. by rewrite write_alias_field, Hname.
    + intros args. unfold AN_field.
      destruct (alias args); [apply write_alias_field|by rewrite fprintf_nil].
Qed.

Lemma alias_field_witness :
  write_alias samtools_stdout (Kseq "chrM" []) empty_io
  = IO (TAB +:+ "AN:M,chrMT,MT") "" ∅
  /\ write_alias samtools_stdout (Kseq "MT" []) empty_io
     = IO (TAB +:+ "AN:chrMT,chrM,M") "" ∅
  /\ write_alias samtools_stdout (Kseq "1" []) empty_io
     = IO (TAB +:+ "AN:chr1") "" ∅.
Proof.
  pose proof (alias_field samtools_stdout (Kseq "chrM" []) empty_io)
    as (_ & _ & _ & _ & _ & _ & HchrM & _).
  pose proof (alias_field samtools_stdout (Kseq "MT" []) empty_io)
    as (_ & _ & _ & _ & _ & _ & _ & HMT & _).
  pose proof (alias_field samtools_stdout (Kseq "1" []) empty_io)
    as (_ & _ & _ & _ & _ & _ & _ & _ & H1 & _).
  cbv zeta in HchrM, HMT, H1.
  rewrite (HchrM eq_refl), (HMT eq_refl), (H1 eq_refl). repeat split.
Defined.

(** C9: for the name chr the alias is empty, the field is AN: and nothing
    follows it. *)
Theorem alias_of_chr (out : FILE) (seq : kseq_t) (o : io) :
  seq_name seq = "chr"%string ->
  write_alias out seq o = fprintf out (TAB +:+ "AN:") o
  /\ alias_base (seq_name seq) = ""%string
  /\ mito_extras (seq_name seq) = ""%string.
Proof.
  intros Hname. rewrite write_alias_field, Hname. repeat split.
Qed.

Lemma alias_of_chr_witness :
  seq_name (Kseq "chr" []) = "chr"%string
  /\ write_alias samtools_stdout (Kseq "chr" []) empty_io
     = IO (TAB +:+ "AN:") "" ∅.
Proof.
  split; [reflexivity|].
  rewrite (proj1 (alias_of_chr samtools_stdout (Kseq "chr" []) empty_io eq_refl)).
  reflexivity.
Defined.

(** ** The URI field *)

(** The UR field, case by case: an explicit URI is written as it is,
    whatever the input; without one, standard input gets no UR field and a
    named input gets file:// followed by what [%s] makes of the result of
    [realpath], which lines 105-107 do not check. *)
Lemma uri_cases (w : world) (fn : string) (args : args_t) (out : FILE) (o : io) :
  (forall u, uri args = Some u ->
     write_uri w fn args out o = fprintf out (TAB +:+ "UR:" +:+ u) o)
  /\ (uri args = None -> fn = "-"%string -> write_uri w fn args out o = o)
  /\ (uri args = None -> fn <> "-"%string ->
      write_uri w fn args out o
      = fprintf out (TAB +:+ "UR:file://" +:+ fmt_s (realpath w fn)) o).
Proof.
  rewrite write_uri_field. unfold UR_field. split; [|split].
  - by intros u ->.
  - intros -> ->. cbn. by rewrite fprintf_nil.
  - intros -> Hfn. by rewrite (proj2 (String.eqb_neq fn "-") Hfn).
Qed.

(** C3: what lines 99-109 write, and where that is not what the claim
    has.  An explicit URI is written as it is, whatever the input, and
    without one standard input gets no UR field.  A named input gets
    file:// followed by what [%s] makes of the result of [realpath], which
    is not tested: the input /dev/stdin, when standard input is a pipe,
    opens and is read, [realpath] does not resolve it, and the record line
    of the run carries UR:file://(null) where the claim has the resolved
    path of the file.  The run ends with status 0. *)
Theorem uri_of_unresolved_path :
  (forall w fn args out o,
      (forall u, uri args = Some u ->
         write_uri w fn args out o = fprintf out (TAB +:+ "UR:" +:+ u) o)
      /\ (uri args = None -> fn = "-"%string -> write_uri w fn args out o = o)
      /\ (uri args = None -> fn <> "-"%string ->
          write_uri w fn args out o
          = fprintf out (TAB +:+ "UR:file://" +:+ fmt_s (realpath w fn)) o))
  /\ strcmp "/dev/stdin" "-" <> 0
  /\ uri default_args = None
  /\ open_input pipe_world "/dev/stdin" = Some (Kstream [chr1] 1)
  /\ realpath pipe_world "/dev/stdin" = None
  /\ write_uri pipe_world "/dev/stdin" default_args samtools_stdout empty_io
     = IO (TAB +:+ "UR:file://(null)") "" ∅
  /\ dict_main (Some hts_md5_init) pipe_world [] ["/dev/stdin"%string] empty_io
     = Ok (0, IO ("@HD" +:+ TAB +:+ "VN:1.0" +:+ TAB +:+ "SO:unsorted" +:+ NL
                  +:+ "@SQ" +:+ TAB +:+ "SN:chr1" +:+ TAB +:+ "LN:8" +:+ TAB
                  +:+ "M5:cc0af3a4fedb18378b4b57b98068e69f" +:+ TAB
                  +:+ "UR:file://(null)" +:+ NL) "" ∅).
Proof.
  split; [exact uri_cases|]. split; [by vm_compute|]. repeat split; by vm_compute.
Qed.

(** ** Failure to open or to read the input *)

(** The run of [dict_main] once the options are parsed and an operand names
    the input. *)
Lemma dict_main_operand (md5 : option hts_md5_context) (w : world)
    (opts : list (ascii * option string)) (args : args_t) (fn : string)
    (operands : list string) (o : io) :
  parse_options default_args opts = Some args ->
  dict_main md5 w opts (fn :: operands) o
  = (out ← write_dict md5 w fn args o;
     match out with
     | Returned o => Ok (0, o)
     | Exited status o => Ok (status, o)
     end).
Proof. intros Hopts. unfold dict_main. by rewrite Hopts. Qed.

(** A failure to read an input that was opened is not told from the end of
    the input: the run is the same whatever negative value ends the stream. *)
Lemma read_failure_as_end_of_input (final : positive) (md5 : option hts_md5_context)
    (w : world) (opts : list (ascii * option string)) (operands : list string)
    (o : io) :
  dict_main md5 (with_final final w) opts operands o = dict_main md5 w opts operands o.
Proof.
  unfold dict_main. destruct (parse_options default_args opts) as [args|]; [|reflexivity].
  change (stdin_isatty (with_final final w)) with (stdin_isatty w).
  destruct (match operands with [] => _ | _ => _ end) as [fn|]; [|reflexivity].
  by rewrite write_dict_with_final.
Qed.

(** C4 (as amended): when the input cannot be opened the run fails: one
    message goes to the error stream, nothing is written to the output or to
    any file, and the command ends with status 1. *)
Theorem input_unavailable (md5 : option hts_md5_context) (w : world) (fn : string)
    (args : args_t) (o : io)
    (opts : list (ascii * option string)) (operands : list string) :
  open_input w fn = None ->
  parse_options default_args opts = Some args ->
  exists o',
    write_dict md5 w fn args o = Ok (Exited 1 o')
    /\ dict_main md5 w opts (fn :: operands) o = Ok (1, o')
    /\ io_stdout o' = io_stdout o
    /\ io_files o' = io_files o
    /\ io_stderr o'
       = (io_stderr o +:+ "dict: " +:+ fn +:+ ": No such file or directory" +:+ NL)%string.
Proof.
  intros Hin Hopts. eexists. unfold dict_main. rewrite Hopts.
  unfold write_dict. rewrite Hin. cbn [mbind res_bind].
  split; [reflexivity|]. split; [reflexivity|]. by destruct o.
Qed.

Lemma input_unavailable_witness :
  open_input (ref_world 1) "missing.fa" = None
  /\ dict_main (Some hts_md5_init) (ref_world 1) [] ["missing.fa"%string] empty_io
     = Ok (1, IO "" ("dict: missing.fa: No such file or directory" +:+ NL) ∅).
Proof.
  split; [reflexivity|].
  destruct (input_unavailable (Some hts_md5_init) (ref_world 1) "missing.fa"
              default_args empty_io [] [] eq_refl eq_refl)
    as (o' & _ & Hmain & Hout & Hfiles & Herr).
  rewrite Hmain. destruct o' as [so se fs]. cbn in Hout, Hfiles, Herr.
  by rewrite Hout, Hfiles, Herr.
Defined.

(** C4, the claim as stated, fails: the file ref.fa is opened, two records
    are read, and the third read fails (return value -3).  The run ends with
    status 0, and the header and both record lines have been written. *)
Lemma read_failure_counterexample :
  open_input (ref_world 3) "ref.fa" = Some (Kstream [chr1; chr2] 3)
  /\ dict_main (Some hts_md5_init) (ref_world 3) [] ["ref.fa"%string] empty_io
     = Ok (0, IO ("@HD" +:+ TAB +:+ "VN:1.0" +:+ TAB +:+ "SO:unsorted" +:+ NL
                  +:+ "@SQ" +:+ TAB +:+ "SN:chr1" +:+ TAB +:+ "LN:8" +:+ TAB
                  +:+ "M5:cc0af3a4fedb18378b4b57b98068e69f" +:+ TAB
                  +:+ "UR:file:///data/ref.fa" +:+ NL
                  +:+ "@SQ" +:+ TAB +:+ "SN:chr2" +:+ TAB +:+ "LN:8" +:+ TAB
                  +:+ "M5:cc0af3a4fedb18378b4b57b98068e69f" +:+ TAB
                  +:+ "UR:file:///data/ref.fa" +:+ NL)
               "" ∅).
Proof. split; vm_compute; reflexivity. Qed.

(** ** The lines of the dictionary *)

Lemma SQ_line_prefix (w : world) (fn : string) (args : args_t) (seq : kseq_t) :
  String.prefix "@SQ" (SQ_line w fn args seq) = true.
Proof. unfold SQ_line. apply prefix_append. Qed.

Lemma count_lines_app (a b : string) :
  count_lines (a +:+ b) = (count_lines a + count_lines b)%nat.
Proof.
  induction a as [|c a IH]; [reflexivity|].
  change (count_lines (String c (a +:+ b))
          = (count_lines (String c a) + count_lines b)%nat).
  cbn [count_lines]. rewrite IH. lia.
Qed.

Lemma count_lines_uint (d : Decimal.uint) :
  count_lines (NilEmpty.string_of_uint d) = 0%nat.
Proof. induction d; cbn; auto. Qed.

Lemma count_lines_fmt_d (x : Z) : count_lines (fmt_d x) = 0%nat.
Proof.
  unfold fmt_d, NilZero.string_of_int, NilZero.string_of_uint.
  destruct (Z.to_int x) as [d|d]; destruct d; cbn [count_lines];
    rewrite ?count_lines_uint; reflexivity.
Qed.

Lemma lower_hex_not_newline (c : ascii) :
  is_lower_hex c = true -> Ascii.eqb c "010" = false.
Proof. intros Hc. by destruct (Ascii.eqb_spec c "010") as [->|]. Qed.

Lemma count_lines_hex (d : list ascii) : count_lines (hts_md5_hex d) = 0%nat.
Proof.
  pose proof (hts_md5_hex_lower d) as Hlow.
  rewrite <- (string_of_list_ascii_of_string (hts_md5_hex d)).
  induction (list_ascii_of_string (hts_md5_hex d)) as [|c l IH]; [reflexivity|].
  cbn [forallb] in Hlow. apply andb_true_iff in Hlow as [Hc Hl].
  cbn [string_of_list_ascii count_lines].
  by rewrite (lower_hex_not_newline _ Hc), IH.
Qed.

Lemma count_lines_advance (n : nat) (s : string) :
  count_lines s = 0%nat -> count_lines (str_advance n s) = 0%nat.
Proof.
  revert s. induction n as [|n IH]; intros [|c s] Hs; try done.
  cbn [str_advance]. apply IH. cbn [count_lines] in Hs. lia.
Qed.

(** A record line is one line when the name, the URI, the assembly and the
    species hold no newline. *)
Lemma SQ_line_one_line (w : world) (fn : string) (args : args_t) (seq : kseq_t) :
  count_lines (seq_name seq) = 0%nat ->
  count_lines (UR_field w fn args) = 0%nat ->
  count_lines (AS_field args) = 0%nat ->
  count_lines (SP_field args) = 0%nat ->
  count_lines (SQ_line w fn args seq) = 1%nat.
Proof.
  intros Hname Huri Has Hsp. unfold SQ_line.
  assert (Han : count_lines (AN_field args (seq_name seq)) = 0%nat).
  { unfold AN_field, alias_base, mito_extras.
    repeat match goal with |- context [if ?b then _ else _] => destruct b end;
      rewrite ?count_lines_app, ?count_lines_advance, ?Hname; done. }
  rewrite !count_lines_app, Hname, Huri, Has, Hsp, Han, count_lines_fmt_d,
    count_lines_hex.
  reflexivity.
Qed.

(** A first record that [kseq_read] returns a negative value with ends the
    loop before any record line: the run returns with the header alone. *)
Lemma write_dict_negative (md5 : hts_md5_context) (w : world) (fn : string)
    (args : args_t) (o : io) (seq : kseq_t) (rest : list kseq_t) (final : positive)
    (out : FILE) (o1 : io) :
  open_input w fn = Some (Kstream (seq :: rest) final) ->
  output_fname args = None ->
  open_output w args o = inr (out, o1) ->
  kseq_return seq < 0 ->
  write_dict (Some md5) w fn args o
  = Ok (Returned (if header args then fprintf out HD_line o1 else o1)).
Proof.
  intros Hin Hname Hout Hl. unfold write_dict, first_read.
  rewrite Hin, Hout, Hname. cbv zeta. cbn [ks_records ks_final].
  by rewrite read_loop_negative.
Qed.

(** A first record that is processed and does not fit the counters leaves
    the whole run without a defined result. *)
Lemma write_dict_overflow (md5 : hts_md5_context) (w : world) (fn : string)
    (args : args_t) (o : io) (seq : kseq_t) (rest : list kseq_t) (final : positive)
    (out : FILE) (o1 : io) :
  open_input w fn = Some (Kstream (seq :: rest) final) ->
  output_fname args = None ->
  open_output w args o = inr (out, o1) ->
  0 <= kseq_return seq ->
  INT_MAX < Z.of_nat (length (seq_seq seq)) ->
  write_dict (Some md5) w fn args o = Undef.
Proof.
  intros Hin Hname Hout Hl Hbig. unfold write_dict, first_read.
  rewrite Hin, Hout, Hname. cbv zeta. cbn [ks_records ks_final].
  by rewrite read_loop_overflow.
Qed.

(** The two runs, for a first record whose sequence has [len] bytes. *)
Lemma run_of_negative_record (w : world) (fn name : string) (s : list ascii)
    (len l : Z) (rest : list kseq_t) (final : positive) (o : io) :
  open_input w fn = Some (Kstream (Kseq name s :: rest) final) ->
  Z.of_nat (length s) = len ->
  int_of_size_t len = l ->
  (l <? 0) = true ->
  kseq_return (Kseq name s) = l
  /\ dict_main (Some hts_md5_init) w [] [fn] o
     = Ok (0, fprintf samtools_stdout HD_line o).
Proof.
  intros Hin Hs Hl Hneg%Z.ltb_lt.
  pose proof (kseq_return_length name s len l Hs Hl) as Hret.
  split; [exact Hret|].
  rewrite (dict_main_operand _ _ [] default_args fn [] o eq_refl).
  rewrite (write_dict_negative hts_md5_init w fn default_args o _ rest final
             samtools_stdout o Hin eq_refl eq_refl); [reflexivity|].
  by rewrite Hret.
Qed.

Lemma run_of_overflowing_record (w : world) (fn name : string) (s : list ascii)
    (len l : Z) (rest : list kseq_t) (final : positive) (o : io) :
  open_input w fn = Some (Kstream (Kseq name s :: rest) final) ->
  Z.of_nat (length s) = len ->
  int_of_size_t len = l ->
  (0 <=? l) = true ->
  (INT_MAX <? len) = true ->
  kseq_return (Kseq name s) = l
  /\ write_dict (Some hts_md5_init) w fn default_args o = Undef
  /\ dict_main (Some hts_md5_init) w [] [fn] o = Undef.
Proof.
  intros Hin Hs Hl Hpos%Z.leb_le Hbig%Z.ltb_lt.
  pose proof (kseq_return_length name s len l Hs Hl) as Hret.
  split; [exact Hret|].
  assert (Hrun : write_dict (Some hts_md5_init) w fn default_args o = Undef).
  { apply (write_dict_overflow hts_md5_init w fn default_args o _ rest final
             samtools_stdout o Hin eq_refl eq_refl).
    - by rewrite Hret.
    - cbn [seq_seq]. by rewrite Hs. }
  split; [exact Hrun|].
  rewrite (dict_main_operand _ _ [] default_args fn [] o eq_refl).
  by rewrite Hrun.
Qed.

(** C5 (as amended): once input and output are open and the digest
    accumulator is there, and when every sequence the reader delivers has at
    most 2^31 - 1 bytes, every record gets one line, in the order of the
    input: @SQ, SN with the name, LN with the length, M5 with the digest,
    then AN, UR, AS and SP in this order, each only when it applies, then a
    newline; assembly and species are written as given.  The length and the
    digest are those of the digest step, and the line is a single line when
    the strings put into it hold no newline.  The records are those the
    first read finds: none when the output file is the input file. *)
Theorem record_lines (md5 : hts_md5_context) (w : world) (fn : string)
    (args : args_t) (o : io) (fp : kstream) (out : FILE) (o1 : io) :
  open_input w fn = Some fp ->
  open_output w args o = inr (out, o1) ->
  Forall (fun seq => fits (seq_seq seq)) (ks_records (first_read w fn args fp)) ->
  write_dict (Some md5) w fn args o
  = Ok (Returned
          (fprintf out
             ((if header args then HD_line else "")
              +:+ concat_lines
                    (SQ_line w fn args <$> ks_records (first_read w fn args fp))) o1))
  /\ (forall seq,
        fits (seq_seq seq) ->
        SQ_line w fn args seq
        = ("@SQ" +:+ TAB +:+ "SN:" +:+ seq_name seq
           +:+ TAB +:+ "LN:" +:+ fmt_d (Z.of_nat (length (retained (seq_seq seq))))
           +:+ TAB +:+ "M5:" +:+ hts_md5_hex (MD5.md5 (normalized (seq_seq seq)))
           +:+ (if alias args
                then TAB +:+ "AN:" +:+ alias_base (seq_name seq)
                     +:+ mito_extras (seq_name seq)
                else "")
           +:+ match uri args with
               | Some u => TAB +:+ "UR:" +:+ u
               | None => if String.eqb fn "-" then ""
                         else TAB +:+ "UR:file://" +:+ fmt_s (realpath w fn)
               end
           +:+ match assembly args with Some a => TAB +:+ "AS:" +:+ a | None => "" end
           +:+ match species args with Some s => TAB +:+ "SP:" +:+ s | None => "" end
           +:+ NL)%string
        /\ write_record w fn args out md5 seq o1
           = Ok (normalized (seq_seq seq), fprintf out (SQ_line w fn args seq) o1)
        /\ digest (char_signed w) hts_md5_init (seq_seq seq)
           = Ok (Z.of_nat (length (retained (seq_seq seq))),
                 hts_md5_hex (MD5.md5 (normalized (seq_seq seq))))
        /\ (count_lines (seq_name seq) = 0%nat ->
            count_lines (UR_field w fn args) = 0%nat ->
            count_lines (AS_field args) = 0%nat ->
            count_lines (SP_field args) = 0%nat ->
            count_lines (SQ_line w fn args seq) = 1%nat)).
Proof.
  intros Hin Hout Hfit. split.
  - rewrite (write_dict_text md5 w fn args o fp out o1 Hin Hout);
      rewrite (processed_fits _ Hfit); [reflexivity|exact Hfit].
  - intros seq Hseq. split; [reflexivity|]. split; [by apply write_record_line|].
    split; [by apply digest_ok|apply SQ_line_one_line].
Qed.

Lemma record_lines_witness :
  Forall (fun seq => fits (seq_seq seq)) [chr1; chr2]
  /\ write_dict (Some hts_md5_init) (ref_world 1) "ref.fa" annotated_args empty_io
     = Ok (Returned
             (IO ("@SQ" +:+ TAB +:+ "SN:chr1" +:+ TAB +:+ "LN:8" +:+ TAB
                  +:+ "M5:cc0af3a4fedb18378b4b57b98068e69f" +:+ TAB
                  +:+ "AN:1" +:+ TAB +:+ "UR:file:///data/ref.fa" +:+ TAB
                  +:+ "AS:GRCh38" +:+ TAB +:+ "SP:Homo sapiens" +:+ NL
                  +:+ "@SQ" +:+ TAB +:+ "SN:chr2" +:+ TAB +:+ "LN:8" +:+ TAB
                  +:+ "M5:cc0af3a4fedb18378b4b57b98068e69f" +:+ TAB
                  +:+ "AN:2" +:+ TAB +:+ "UR:file:///data/ref.fa" +:+ TAB
                  +:+ "AS:GRCh38" +:+ TAB +:+ "SP:Homo sapiens" +:+ NL)
                 "" ∅)).
Proof.
  assert (Hfit : Forall (fun seq => fits (seq_seq seq)) [chr1; chr2])
    by (repeat constructor; vm_compute; discriminate).
  split; [exact Hfit|].
  rewrite (proj1 (record_lines hts_md5_init (ref_world 1) "ref.fa" annotated_args
                    empty_io (Kstream [chr1; chr2] 1) samtools_stdout empty_io
                    eq_refl eq_refl Hfit)).
  vm_compute. reflexivity.
Defined.

(** C5, the claim as stated, fails: the first record of big.fa has a
    sequence of 2^31 bytes, with which [kseq_read] returns -2^31, its length
    as an [int].  The loop ends there: the run writes the header and no
    line for this record nor for the record chr1 that follows it, and ends
    with status 0. *)
Lemma dropped_record_counterexample :
  open_input big_world "big.fa" = Some (Kstream [Kseq "big" big_sequence; chr1] 1)
  /\ kseq_return (Kseq "big" big_sequence) = -2147483648
  /\ dict_main (Some hts_md5_init) big_world [] ["big.fa"%string] empty_io
     = Ok (0, IO ("@HD" +:+ TAB +:+ "VN:1.0" +:+ TAB +:+ "SO:unsorted" +:+ NL) "" ∅).
Proof.
  split; [reflexivity|].
  exact (run_of_negative_record big_world "big.fa" "big" big_sequence
           2147483648 (-2147483648) [chr1] 1 empty_io eq_refl
           length_big_sequence eq_refl eq_refl).
Qed.

(** C6 (as amended): once input and output are open and the digest
    accumulator is there, and when every record that is processed has a
    sequence of at most 2^31 - 1 bytes, the header line is written exactly
    when it is enabled, once, ahead of the record lines and whether or not
    there are any; record lines begin with @SQ and the header line does
    not; with no record and the header enabled the output is the header
    line alone, one line. *)
Theorem header_line (md5 : hts_md5_context) (w : world) (fn : string)
    (args : args_t) (o : io) (fp : kstream) (out : FILE) (o1 : io) :
  open_input w fn = Some fp ->
  open_output w args o = inr (out, o1) ->
  Forall (fun seq => fits (seq_seq seq))
         (processed (ks_records (first_read w fn args fp))) ->
  (header args = true ->
     write_dict (Some md5) w fn args o
     = Ok (Returned
             (fprintf out
                (HD_line
                 +:+ concat_lines
                       (SQ_line w fn args
                          <$> processed (ks_records (first_read w fn args fp)))) o1)))
  /\ (header args = false ->
        write_dict (Some md5) w fn args o
        = Ok (Returned
                (fprintf out
                   (concat_lines
                      (SQ_line w fn args
                         <$> processed (ks_records (first_read w fn args fp)))) o1)))
  /\ (header args = true -> ks_records (first_read w fn args fp) = [] ->
        write_dict (Some md5) w fn args o = Ok (Returned (fprintf out HD_line o1)))
  /\ HD_line = ("@HD" +:+ TAB +:+ "VN:1.0" +:+ TAB +:+ "SO:unsorted" +:+ NL)%string
  /\ count_lines HD_line = 1%nat
  /\ String.prefix "@SQ" HD_line = false
  /\ (forall seq, String.prefix "@SQ" (SQ_line w fn args seq) = true).
Proof.
  intros Hin Hout Hfit.
  rewrite (write_dict_text md5 w fn args o fp out o1 Hin Hout Hfit).
  split; [by intros ->|]. split; [by intros ->|].
  split; [intros -> ->; cbn [processed fmap list_fmap concat_lines];
          by rewrite append_nil_r|].
  do 3 (split; [reflexivity|]). intros seq. apply SQ_line_prefix.
Qed.

Lemma header_line_witness :
  Forall (fun seq => fits (seq_seq seq)) (processed [chr1; chr2])
  /\ write_dict (Some hts_md5_init) (ref_world 1) "ref.fa" default_args empty_io
     = Ok (Returned
             (IO ("@HD" +:+ TAB +:+ "VN:1.0" +:+ TAB +:+ "SO:unsorted" +:+ NL
                  +:+ "@SQ" +:+ TAB +:+ "SN:chr1" +:+ TAB +:+ "LN:8" +:+ TAB
                  +:+ "M5:cc0af3a4fedb18378b4b57b98068e69f" +:+ TAB
                  +:+ "UR:file:///data/ref.fa" +:+ NL
                  +:+ "@SQ" +:+ TAB +:+ "SN:chr2" +:+ TAB +:+ "LN:8" +:+ TAB
                  +:+ "M5:cc0af3a4fedb18378b4b57b98068e69f" +:+ TAB
                  +:+ "UR:file:///data/ref.fa" +:+ NL)
                 "" ∅))
  /\ write_dict (Some hts_md5_init) empty_world "empty.fa" default_args empty_io
     = Ok (Returned (IO ("@HD" +:+ TAB +:+ "VN:1.0" +:+ TAB +:+ "SO:unsorted" +:+ NL)
                        "" ∅)).
Proof.
  assert (Hfit : Forall (fun seq => fits (seq_seq seq)) (processed [chr1; chr2]))
    by (repeat constructor; vm_compute; discriminate).
  split; [exact Hfit|]. split.
  - rewrite (proj1 (header_line hts_md5_init (ref_world 1) "ref.fa" default_args
                      empty_io (Kstream [chr1; chr2] 1) samtools_stdout empty_io
                      eq_refl eq_refl Hfit) eq_refl).
    vm_compute. reflexivity.
  - rewrite (proj1 (proj2 (proj2
               (header_line hts_md5_init empty_world "empty.fa" default_args empty_io
                            (Kstream [] 1) samtools_stdout empty_io eq_refl eq_refl
                            (Forall_nil_2 _))))
               eq_refl eq_refl).
    reflexivity.
Defined.

(** C6, the claim as stated, fails: the only record of huge.fa has a
    sequence of 2^32 + 8 bytes, with which [kseq_read] returns 8.  The
    record is processed, the counter [i] overflows on it, and the run has
    no defined result: with the header enabled, no header line is promised. *)
Lemma undefined_run_counterexample :
  header default_args = true
  /\ open_input huge_world "huge.fa" = Some (Kstream [Kseq "huge" huge_sequence] 1)
  /\ kseq_return (Kseq "huge" huge_sequence) = 8
  /\ write_dict (Some hts_md5_init) huge_world "huge.fa" default_args empty_io = Undef
  /\ dict_main (Some hts_md5_init) huge_world [] ["huge.fa"%string] empty_io = Undef.
Proof.
  split; [reflexivity|]. split; [reflexivity|].
  exact (run_of_overflowing_record huge_world "huge.fa" "huge" huge_sequence
           4294967304 8 [] 1 empty_io eq_refl
           length_huge_sequence eq_refl eq_refl eq_refl).
Qed.

(** ** Standard input *)

Lemma SQ_line_stdin (w w' : world) (args : args_t) (seq : kseq_t) :
  SQ_line w' "-" args seq = SQ_line w "-" args seq.
Proof. unfold SQ_line, UR_field. reflexivity. Qed.

Lemma open_output_fopen (w w' : world) (args : args_t) (o : io) :
  fopen_w w' = fopen_w w -> open_output w' args o = open_output w args o.
Proof. intros Hf. unfold open_output, fopen. by rewrite Hf. Qed.

Lemma first_read_stdin (w w' : world) (args : args_t) (fp : kstream) :
  first_read w' "-" args fp = fp /\ first_read w "-" args fp = fp.
Proof. unfold first_read. by destruct (output_fname args). Qed.

(** C10: the name "-" stands for standard input.  [write_dict] then reads
    what standard input holds and never asks for a file of that name, so
    what such a file holds and what [realpath] would answer do not matter;
    without a URI option no UR field is written; and giving "-" as the
    operand is the same as giving no operand with standard input not a
    terminal. *)
Theorem stdin_sentinel (md5 : option hts_md5_context) (w : world) (args : args_t)
    (o : io) (opts : list (ascii * option string)) :
  open_input w "-" = gzdopen_stdin w
  /\ (forall w',
        gzdopen_stdin w' = gzdopen_stdin w -> fopen_w w' = fopen_w w ->
        write_dict md5 w' "-" args o = write_dict md5 w "-" args o)
  /\ (uri args = None ->
        UR_field w "-" args = ""%string
        /\ forall out o', write_uri w "-" args out o' = o')
  /\ (stdin_isatty w = false ->
        dict_main md5 w opts ["-"%string] o = dict_main md5 w opts [] o).
Proof.
  split; [reflexivity|]. split; [|split].
  - intros w' Hstdin Hfopen.
    pose proof (open_output_fopen w w' args o Hfopen) as Hout.
    unfold write_dict. rewrite !open_input_stdin, Hstdin, Hout.
    destruct (gzdopen_stdin w) as [fp|]; [|reflexivity].
    destruct (open_output w args o) as [o1|[out o1]]; [reflexivity|].
    destruct md5 as [md5|]; [|reflexivity]. cbv zeta.
    destruct (first_read_stdin w w' args fp) as [-> ->].
    by rewrite (read_loop_world w w' "-" args out (ks_records fp)
                  (ks_final fp) (ks_final fp)).
  - intros Hu. split; [unfold UR_field; by rewrite Hu|].
    intros out o'. rewrite write_uri_field. unfold UR_field. rewrite Hu.
    apply fprintf_nil.
  - intros Htty. unfold dict_main. by rewrite Htty.
Qed.

Lemma stdin_sentinel_witness :
  gzopen stdin_world "-" = Some (Kstream [chr2] 1)
  /\ write_dict (Some hts_md5_init) stdin_world "-" default_args empty_io
     = Ok (Returned
             (IO ("@HD" +:+ TAB +:+ "VN:1.0" +:+ TAB +:+ "SO:unsorted" +:+ NL
                  +:+ "@SQ" +:+ TAB +:+ "SN:chr1" +:+ TAB +:+ "LN:8" +:+ TAB
                  +:+ "M5:cc0af3a4fedb18378b4b57b98068e69f" +:+ NL
                  +:+ "@SQ" +:+ TAB +:+ "SN:chr2" +:+ TAB +:+ "LN:8" +:+ TAB
                  +:+ "M5:cc0af3a4fedb18378b4b57b98068e69f" +:+ NL)
                 "" ∅)).
Proof.
  split; [reflexivity|].
  rewrite (proj1 (proj2 (stdin_sentinel (Some hts_md5_init)
                           (World (fun _ => None) (Some (Kstream [chr1; chr2] 1))
                                  (fun _ => true) (fun _ => None) false true)
                           default_args empty_io []))
             stdin_world eq_refl eq_refl).
  vm_compute. reflexivity.
Defined.

(** ** Examples *)

Example md5_empty :
  hts_md5_hex (MD5.md5 []) = "d41d8cd98f00b204e9800998ecf8427e"%string.
Proof. vm_compute. reflexivity. Qed.

Example md5_abc :
  hts_md5_hex (MD5.md5 (bytes_of_string "abc"))
  = "900150983cd24fb0d6963f7d28e17f72"%string.
Proof. vm_compute. reflexivity. Qed.

Example md5_two_blocks :
  hts_md5_hex (MD5.md5 (replicate 130 "A"%char))
  = "e79c1023ae890f40ad58c6571364f968"%string.
Proof. vm_compute. reflexivity. Qed.

Example md5_pad_boundary :
  hts_md5_hex (MD5.md5 (replicate 55 "A"%char))
  = "e38a93ffe074a99b3fed47dfbe37db21"%string
  /\ hts_md5_hex (MD5.md5 (replicate 56 "A"%char))
  = "a2f3e2024931bd470555002aa5ccc010"%string.
Proof. vm_compute. split; reflexivity. Qed.

Example digest_ACGTacgt :
  digest true hts_md5_init (bytes_of_string "ACGTacgt")
  = Ok (8, "cc0af3a4fedb18378b4b57b98068e69f"%string).
Proof. vm_compute. reflexivity. Qed.

Example normalize_mixed :
  normalize false (bytes_of_string ("ac gt" +:+ String "010" "Nn~!")%string)
  = Ok (bytes_of_string "ACGTNN~!~!", 8).
Proof. vm_compute. reflexivity. Qed.

(** The round trip of the specification: two records with the same
    normalised bytes get the same LN and M5 and differ in SN only. *)
Example two_records_same_digest :
  dict_main (Some hts_md5_init) (ref_world 1) [] ["ref.fa"%string] empty_io
  = Ok (0, IO ("@HD" +:+ TAB +:+ "VN:1.0" +:+ TAB +:+ "SO:unsorted" +:+ NL
               +:+ "@SQ" +:+ TAB +:+ "SN:chr1" +:+ TAB +:+ "LN:8" +:+ TAB
               +:+ "M5:cc0af3a4fedb18378b4b57b98068e69f" +:+ TAB
               +:+ "UR:file:///data/ref.fa" +:+ NL
               +:+ "@SQ" +:+ TAB +:+ "SN:chr2" +:+ TAB +:+ "LN:8" +:+ TAB
               +:+ "M5:cc0af3a4fedb18378b4b57b98068e69f" +:+ TAB
               +:+ "UR:file:///data/ref.fa" +:+ NL)
            "" ∅).
Proof. vm_compute. reflexivity. Qed.

(** With the header disabled the same input gives two lines. *)
Example no_header_two_lines :
  exists text,
    dict_main (Some hts_md5_init) (ref_world 1) [("H"%char, None)] ["ref.fa"%string] empty_io
    = Ok (0, IO text "" ∅)
    /\ count_lines text = 2%nat /\ String.prefix "@SQ" text = true.
Proof. eexists. split; [vm_compute; reflexivity|]. split; reflexivity. Qed.

(** Writing to a file with -o, and an output that cannot be opened. *)
Example output_file :
  dict_main (Some hts_md5_init) empty_world [("o"%char, Some "out.dict"%string)] ["empty.fa"%string] empty_io
  = Ok (0, IO "" "" {[ "out.dict"%string := HD_line ]}).
Proof. vm_compute. reflexivity. Qed.

(** The output file is created before the digest accumulator is asked for
    (lines 63 and 70): when there is none the command ends with status 1,
    without a message, and leaves the file empty. *)
Example no_accumulator :
  dict_main None empty_world [("o"%char, Some "out.dict"%string)] ["empty.fa"%string]
    empty_io
  = Ok (1, IO "" "" {[ "out.dict"%string := ""%string ]}).
Proof. vm_compute. reflexivity. Qed.

(** Writing the dictionary over the input: the file is emptied before the
    first read, no record is found, and the file ends up with the header. *)
Example output_over_input :
  open_input (ref_world 1) "ref.fa" = Some (Kstream [chr1; chr2] 1)
  /\ dict_main (Some hts_md5_init) (ref_world 1) [("o"%char, Some "ref.fa"%string)]
       ["ref.fa"%string] empty_io
     = Ok (0, IO "" "" {[ "ref.fa"%string := HD_line ]}).
Proof. split; vm_compute; reflexivity. Qed.

Example usage_without_operand :
  dict_main (Some hts_md5_init) empty_world [] [] empty_io = Ok (1, IO "" usage_text ∅).
Proof. reflexivity. Qed.

(** * Further properties of [write_dict] and [dict_main] *)

(** ** The normalisation loop *)

Lemma normalize_from_frame (sgn : bool) (fuel : nat) :
  forall (s s' : list ascii) (n m : nat) (k : Z),
    (m <= n)%nat -> (n <= length s)%nat ->
    Z.of_nat (length s) <= INT_MAX ->
    normalize_from fuel sgn s (Z.of_nat n) (Z.of_nat m) = Ok (s', k) ->
    (m <= Z.to_nat k)%nat /\ drop (Z.to_nat k) s' = drop (Z.to_nat k) s.
Proof.
  induction fuel as [|fuel IH]; intros s s' n m k Hmn Hn Hmax Hrun; [discriminate|].
  cbn [normalize_from] in Hrun. rewrite size_t_of_nat_index in Hrun by lia.
  destruct (Z.ltb_spec (Z.of_nat n) (Z.of_nat (length s))) as [Hlt|Hge].
  - rewrite Nat2Z.id in Hrun.
    destruct (lookup_lt_is_Some_2 s n ltac:(lia)) as [c Hc].
    rewrite Hc in Hrun. cbn zeta in Hrun. rewrite graph_test, Nat2Z.id in Hrun.
    destruct (is_graph c).
    + rewrite (int_incr_ok m) in Hrun by lia. cbn [mbind res_bind] in Hrun.
      rewrite (int_incr_ok n) in Hrun by lia. cbn [mbind res_bind] in Hrun.
      apply IH in Hrun as [Hk Hdrop]; rewrite ?length_insert; try lia.
      split; [lia|]. by rewrite Hdrop, drop_insert_lt by lia.
    + cbn [mbind res_bind] in Hrun.
      rewrite (int_incr_ok n) in Hrun by lia. cbn [mbind res_bind] in Hrun.
      apply IH in Hrun; [exact Hrun|lia..].
  - injection Hrun as <- <-. rewrite Nat2Z.id. auto.
Qed.

(** X8: the loop compacts in place and writes nowhere else: the buffer keeps
    its length, and from index [k] on it still holds the bytes of the
    input. *)
Theorem normalize_frame (sgn : bool) (s s' : list ascii) (k : Z) :
  normalize sgn s = Ok (s', k) ->
  length s' = length s
  /\ drop (Z.to_nat k) s' = drop (Z.to_nat k) s.
Proof.
  intros Hrun. pose proof (normalize_fits _ _ _ _ Hrun) as Hmax.
  split.
  - destruct (normalize_ok sgn s Hmax) as (s0 & Hrun0 & Hlen & _).
    rewrite Hrun in Hrun0. by injection Hrun0 as <- _.
  - by apply (normalize_from_frame sgn (S (length s)) s s' 0 0 k); try lia.
Qed.

Lemma normalize_frame_witness :
  normalize true (bytes_of_string "a c g") = Ok (bytes_of_string "ACG g", 3)
  /\ drop 3 (bytes_of_string "ACG g") = drop 3 (bytes_of_string "a c g").
Proof.
  assert (Hrun : normalize true (bytes_of_string "a c g")
                 = Ok (bytes_of_string "ACG g", 3))
    by (vm_compute; reflexivity).
  split; [exact Hrun|].
  exact (proj2 (normalize_frame true _ _ _ Hrun)).
Defined.

(** X9: the loop has a defined result exactly for buffers of at most
    [INT_MAX] bytes; on any longer buffer the counter [i] overflows, and so
    does the digest step. *)
Theorem normalize_defined_iff (sgn : bool) (md5 : hts_md5_context) (s : list ascii) :
  ((exists s' k, normalize sgn s = Ok (s', k)) <-> Z.of_nat (length s) <= INT_MAX)
  /\ ((normalize sgn s = Undef /\ digest sgn md5 s = Undef)
      <-> INT_MAX < Z.of_nat (length s)).
Proof.
  split; split.
  - intros (s' & k & Hrun). exact (normalize_fits _ _ _ _ Hrun).
  - intros Hfit. destruct (normalize_ok sgn s Hfit) as (s' & Hrun & _). eauto.
  - intros [Hrun _].
    destruct (Z.le_gt_cases (Z.of_nat (length s)) INT_MAX) as [Hfit|Hbig]; [|lia].
    destruct (normalize_ok sgn s Hfit) as (s' & Hrun' & _). congruence.
  - intros Hbig. split; [by apply normalize_overflow|by apply digest_overflow].
Qed.

(** X10: the result does not depend on whether plain [char] is signed:
    bytes from 0x80 on fail the test of line 77 either way, and [toupper]
    only sees the bytes that pass it.  The same buffer, the same [k], the
    same digest and the same line on every platform. *)
Theorem normalize_char_signedness (md5 : hts_md5_context) (s : list ascii)
    (w : world) (fn : string) (args : args_t) (out : FILE) (seq : kseq_t) (o : io) :
  normalize true s = normalize false s
  /\ digest true md5 s = digest false md5 s
  /\ write_record w fn args out md5 seq o
     = write_record (World (gzopen w) (gzdopen_stdin w) (fopen_w w) (realpath w)
                           (stdin_isatty w) (negb (char_signed w)))
                    fn args out md5 seq o.
Proof.
  assert (Hn : normalize true s = normalize false s)
    by apply normalize_from_signedness.
  split; [exact Hn|]. split.
  - unfold digest, seq_digest. by rewrite Hn.
  - symmetry. by apply write_record_world.
Qed.

(** ** Where the dictionary goes *)

(** X1: when the output file cannot be opened the run ends with status 1 and
    one message on the error stream; the input had been opened before, but
    nothing is written, not even the header, and no file is created. *)
Theorem output_unavailable (md5 : option hts_md5_context) (w : world)
    (fn path : string) (args : args_t) (o : io) (fp : kstream) :
  open_input w fn = Some fp ->
  output_fname args = Some path ->
  fopen_w w path = false ->
  exists o',
    write_dict md5 w fn args o = Ok (Exited 1 o')
    /\ io_stdout o' = io_stdout o
    /\ io_files o' = io_files o
    /\ io_stderr o'
       = (io_stderr o +:+ "dict: " +:+ path +:+ ": Cannot open file for writing" +:+ NL)%string.
Proof.
  intros Hin Hpath Hlocked. eexists. unfold write_dict, open_output, fopen.
  rewrite Hin, Hpath, Hlocked. split; [reflexivity|]. by destruct o.
Qed.

Lemma output_unavailable_witness :
  write_dict (Some hts_md5_init) locked_world "ref.fa"
    (Args (Some "out.dict"%string) None None None None false true) empty_io
  = Ok (Exited 1 (IO "" ("dict: out.dict: Cannot open file for writing" +:+ NL) ∅)).
Proof.
  destruct (output_unavailable (Some hts_md5_init) locked_world "ref.fa" "out.dict"
              (Args (Some "out.dict"%string) None None None None false true) empty_io
              (Kstream [chr1; chr2] 1) eq_refl eq_refl eq_refl)
    as (o' & Hrun & Hout & Hfiles & Herr).
  rewrite Hrun. destruct o' as [so se fs]. cbn in Hout, Hfiles, Herr.
  by rewrite Hout, Hfiles, Herr.
Defined.




Lemma count_lines_concat (lines : list string) :
  Forall (fun l => count_lines l = 1%nat) lines ->
  count_lines (concat_lines lines) = length lines.
Proof.
  induction 1 as [|l lines Hl _ IH]; [reflexivity|].
  cbn [concat_lines length]. rewrite count_lines_app, Hl, IH. reflexivity.
Qed.

(** X3: without an output file, with an accumulator and with sequences of
    at most 2^31 - 1 bytes, the run appends the dictionary to the output
    stream and changes nothing else: the header line when it is enabled,
    then the line of each record in the order of the input.  When no name
    and no option string holds a newline, that text has one line for each
    record, and one more for the header when that is enabled. *)
Theorem dictionary_line_count (md5 : hts_md5_context) (w : world) (fn : string)
    (args : args_t) (o : io) (fp : kstream) :
  open_input w fn = Some fp ->
  output_fname args = None ->
  Forall (fun seq => fits (seq_seq seq)) (ks_records fp) ->
  Forall (fun seq => count_lines (seq_name seq) = 0%nat) (ks_records fp) ->
  count_lines (UR_field w fn args) = 0%nat ->
  count_lines (AS_field args) = 0%nat ->
  count_lines (SP_field args) = 0%nat ->
  write_dict (Some md5) w fn args o
  = Ok (Returned
          (IO (io_stdout o
               +:+ ((if header args then HD_line else "")
                    +:+ concat_lines (SQ_line w fn args <$> ks_records fp)))
              (io_stderr o) (io_files o)))
  /\ count_lines ((if header args then HD_line else "")
                  +:+ concat_lines (SQ_line w fn args <$> ks_records fp))
     = ((if header args then 1 else 0) + length (ks_records fp))%nat.
Proof.
  intros Hin Hpath Hfit Hnames Huri Has Hsp.
  assert (Hfirst : first_read w fn args fp = fp)
    by (unfold first_read; by rewrite Hpath).
  split.
  - rewrite (write_dict_text md5 w fn args o fp samtools_stdout o Hin);
      rewrite ?Hfirst, ?(processed_fits _ Hfit); [reflexivity| |exact Hfit].
    unfold open_output. by rewrite Hpath.
  - rewrite count_lines_app, count_lines_concat.
    + rewrite length_fmap. by destruct (header args).
    + apply Forall_fmap. eapply Forall_impl; [exact Hnames|].
      intros seq Hname. by apply SQ_line_one_line.
Qed.

Lemma dictionary_line_count_witness :
  Forall (fun seq => fits (seq_seq seq)) [chr1; chr2]
  /\ count_lines
       (concat_lines (SQ_line (ref_world 1) "ref.fa" annotated_args <$> [chr1; chr2]))
     = 2%nat
  /\ write_dict (Some hts_md5_init) (ref_world 1) "ref.fa" annotated_args empty_io
     = Ok (Returned
             (IO (concat_lines
                    (SQ_line (ref_world 1) "ref.fa" annotated_args <$> [chr1; chr2]))
                 "" ∅)).
Proof.
  assert (Hfit : Forall (fun seq => fits (seq_seq seq)) [chr1; chr2])
    by (repeat constructor; vm_compute; discriminate).
  destruct (dictionary_line_count hts_md5_init (ref_world 1) "ref.fa" annotated_args
              empty_io (Kstream [chr1; chr2] 1) eq_refl eq_refl Hfit)
    as [Hrun Hcount]; [repeat constructor|reflexivity..|].
  split; [exact Hfit|]. split; [exact Hcount|exact Hrun].
Defined.

(** X4: line 75 tells a failure to read an input that was opened from the
    end of the input in no way: whatever negative value [kseq_read] returns
    after the last record it delivered (-1 at the end of the input, -2 and
    -3 for a failure), [write_dict] and [dict_main] end in the same way
    with the same output, and with status 0 once input and output were
    opened, the accumulator is there and the sequences processed have at
    most 2^31 - 1 bytes. *)
Theorem read_failure_ignored (final : positive) (md5 : option hts_md5_context)
    (w : world) (fn : string) (args : args_t) (opts : list (ascii * option string))
    (operands : list string) (o : io) :
  write_dict md5 (with_final final w) fn args o = write_dict md5 w fn args o
  /\ dict_main md5 (with_final final w) opts operands o = dict_main md5 w opts operands o
  /\ (forall ctx fp out o1,
        md5 = Some ctx ->
        open_input w fn = Some fp -> open_output w args o = inr (out, o1) ->
        parse_options default_args opts = Some args ->
        Forall (fun seq => fits (seq_seq seq))
               (processed (ks_records (first_read w fn args fp))) ->
        exists o', dict_main md5 (with_final final w) opts (fn :: operands) o = Ok (0, o')).
Proof.
  split; [apply write_dict_with_final|].
  split; [apply read_failure_as_end_of_input|].
  intros ctx fp out o1 -> Hin Hout Hopts Hfit. rewrite read_failure_as_end_of_input.
  unfold dict_main.
  rewrite Hopts, (write_dict_text ctx w fn args o fp out o1 Hin Hout Hfit).
  cbn [mbind res_bind]. eauto.
Qed.

Lemma read_failure_ignored_witness :
  kseq_read [] 3 = -3
  /\ dict_main (Some hts_md5_init) (ref_world 3) [] ["ref.fa"%string] empty_io
     = dict_main (Some hts_md5_init) (ref_world 1) [] ["ref.fa"%string] empty_io.
Proof.
  split; [reflexivity|].
  exact (proj1 (proj2 (read_failure_ignored 3 (Some hts_md5_init) (ref_world 1)
                         "ref.fa" default_args [] ["ref.fa"%string] empty_io))).
Defined.

(** ** Options and operands *)

Lemma set_option_known (args : args_t) (c : ascii) (optarg : option string) :
  (known_option c = true -> exists args', set_option args c optarg = Some args')
  /\ (known_option c = false -> set_option args c optarg = None).
Proof.
  destruct args. unfold set_option, known_option.
  repeat match goal with |- context [Ascii.eqb c ?x] => destruct (Ascii.eqb c x) end;
    cbn; split; intros; try discriminate; eauto.
Qed.

Lemma parse_options_unknown (opts : list (ascii * option string)) :
  forall args,
    existsb (fun p => negb (known_option (fst p))) opts = true ->
    parse_options args opts = None.
Proof.
  induction opts as [|[c optarg] opts IH]; intros args Hbad; [discriminate|].
  cbn [parse_options]. cbn [existsb fst] in Hbad.
  destruct (known_option c) eqn:Hc.
  - destruct (set_option args c optarg); [by apply IH|reflexivity].
  - by rewrite (proj2 (set_option_known args c optarg) Hc).
Qed.

Lemma parse_options_known (opts : list (ascii * option string)) :
  forall args,
    forallb (fun p => known_option (fst p)) opts = true ->
    exists args', parse_options args opts = Some args'.
Proof.
  induction opts as [|[c optarg] opts IH]; intros args Hok; [by exists args|].
  cbn [forallb fst] in Hok. apply andb_true_iff in Hok as [Hc Hok].
  cbn [parse_options].
  destruct (proj1 (set_option_known args c optarg) Hc) as [args' ->].
  by apply IH.
Qed.

(** X5: a usage error writes the usage text to the error stream and ends
    with status 1 without opening anything.  That is so when some option is
    not one of A, a, s, u, o, H (so also for -h), whatever else the command
    line holds, and when the options are fine but there is no operand and
    standard input is a terminal. *)
Theorem usage_error (md5 : option hts_md5_context) (w : world)
    (opts : list (ascii * option string)) (operands : list string) (o : io) :
  (existsb (fun p => negb (known_option (fst p))) opts = true ->
     dict_main md5 w opts operands o
     = Ok (1, IO (io_stdout o) (io_stderr o +:+ usage_text) (io_files o)))
  /\ (forallb (fun p => known_option (fst p)) opts = true ->
      stdin_isatty w = true ->
      dict_main md5 w opts [] o
      = Ok (1, IO (io_stdout o) (io_stderr o +:+ usage_text) (io_files o))).
Proof.
  split.
  - intros Hbad. unfold dict_main. by rewrite parse_options_unknown.
  - intros Hok Htty. unfold dict_main.
    destruct (parse_options_known opts default_args Hok) as [args ->].
    by rewrite Htty.
Qed.

Lemma usage_error_witness :
  dict_main (Some hts_md5_init) (ref_world 1) [("A"%char, None); ("h"%char, None)]
            ["ref.fa"%string] empty_io
  = Ok (1, IO "" usage_text ∅).
Proof.
  rewrite (proj1 (usage_error (Some hts_md5_init) (ref_world 1)
                    [("A"%char, None); ("h"%char, None)]
                    ["ref.fa"%string] empty_io) eq_refl).
  reflexivity.
Defined.

Lemma parse_options_fields (opts : list (ascii * option string)) :
  forall a0 args,
    parse_options a0 opts = Some args ->
    header args = header a0 && negb (has_option "H" opts)
    /\ alias args = alias a0 || has_option "A" opts
    /\ assembly args = last_optarg "a" opts (assembly a0)
    /\ species args = last_optarg "s" opts (species a0)
    /\ uri args = last_optarg "u" opts (uri a0)
    /\ output_fname args = last_optarg "o" opts (output_fname a0)
    /\ fname args = fname a0.
Proof.
  induction opts as [|[c optarg] opts IH]; intros a0 args Hparse.
  - injection Hparse as <-. cbn. by rewrite andb_true_r, orb_false_r.
  - cbn [parse_options] in Hparse.
    destruct (set_option a0 c optarg) as [a1|] eqn:Hset; [|discriminate].
    apply IH in Hparse as (Hh & Hal & Ha & Hs & Hu & Ho & Hf).
    destruct a0 as [o0 f0 as0 s0 u0 al0 h0]. unfold set_option in Hset.
    unfold has_option, last_optarg in *. cbn [existsb fold_left fst snd].
    rewrite Hh, Hal, Ha, Hs, Hu, Ho, Hf. clear Hh Hal Ha Hs Hu Ho Hf.
    repeat match type of Hset with
           | context [Ascii.eqb c ?x] => destruct (Ascii.eqb_spec c x) as [->|_]
           end;
      try discriminate; injection Hset as <-; cbn;
      rewrite ?andb_false_r, ?orb_true_r; repeat split.
Qed.

(** X6: what the options leave in [args].  The header is on unless -H
    occurs, aliases are off unless -A occurs, and assembly, species, URI and
    output file are the argument of the last -a, -s, -u and -o, absent
    without one; [fname] is never set. *)
Theorem parse_options_result (opts : list (ascii * option string)) (args : args_t) :
  parse_options default_args opts = Some args ->
  header args = negb (has_option "H" opts)
  /\ alias args = has_option "A" opts
  /\ assembly args = last_optarg "a" opts None
  /\ species args = last_optarg "s" opts None
  /\ uri args = last_optarg "u" opts None
  /\ output_fname args = last_optarg "o" opts None
  /\ fname args = None.
Proof. intros Hparse. exact (parse_options_fields opts default_args args Hparse). Qed.

Lemma parse_options_result_witness :
  exists args,
    parse_options default_args
      [("a"%char, Some "hg19"%string); ("H"%char, None);
       ("a"%char, Some "GRCh38"%string)] = Some args
    /\ header args = false /\ alias args = false
    /\ assembly args = Some "GRCh38"%string.
Proof.
  eexists. split; [reflexivity|].
  destruct (parse_options_result
              [("a"%char, Some "hg19"%string); ("H"%char, None);
               ("a"%char, Some "GRCh38"%string)] _ eq_refl)
    as (Hh & Hal & Ha & _).
  rewrite Hh, Hal, Ha. repeat split.
Defined.

(** ** How a run ends *)

Lemma open_output_inl (w : world) (args : args_t) (o o1 : io) :
  open_output w args o = inl o1 ->
  io_stdout o1 = io_stdout o /\ io_files o1 = io_files o.
Proof.
  unfold open_output, fopen. destruct (output_fname args) as [path|]; [|discriminate].
  destruct (fopen_w w path); [discriminate|]. intros [= <-]. by destruct o.
Qed.

Lemma open_output_inr (w : world) (args : args_t) (o o1 : io) (out : FILE)
    (text : string) :
  open_output w args o = inr (out, o1) ->
  io_stderr (fprintf out text o1) = io_stderr o.
Proof.
  unfold open_output, fopen. destruct (output_fname args) as [path|].
  - destruct (fopen_w w path); [|discriminate]. by intros [= <- <-].
  - by intros [= <- <-].
Qed.

(** What opening the output leaves behind: nothing without -o, and the file
    of -o, empty, with it. *)
Lemma open_output_state (w : world) (args : args_t) (o o1 : io) (out : FILE) :
  open_output w args o = inr (out, o1) ->
  io_stdout o1 = io_stdout o /\ io_stderr o1 = io_stderr o
  /\ (io_files o1 = io_files o
      \/ exists path, output_fname args = Some path
                      /\ io_files o1 = <[path := ""%string]> (io_files o)).
Proof.
  unfold open_output, fopen. destruct (output_fname args) as [path|].
  - destruct (fopen_w w path); [|discriminate]. intros [= <- <-].
    cbn [io_stdout io_stderr io_files].
    split; [reflexivity|]. split; [reflexivity|]. right. by exists path.
  - intros [= <- <-]. auto.
Qed.

(** The loop either writes some text to [out], or overflows on a record it
    processes; its iteration budget is never used up. *)
Lemma read_loop_cases (w : world) (fn : string) (args : args_t) (out : FILE)
    (final : positive) (records : list kseq_t) :
  forall (md5 : hts_md5_context) (o : io),
    (exists md5' text,
        read_loop w fn args out md5 records final o = Ok (md5', fprintf out text o))
    \/ (read_loop w fn args out md5 records final o = Undef
        /\ Exists (fun seq => 0 <= kseq_return seq
                              /\ INT_MAX < Z.of_nat (length (seq_seq seq))) records).
Proof.
  induction records as [|seq rest IH]; intros md5 o.
  - left. exists md5, ""%string. cbn. by rewrite fprintf_nil.
  - destruct (Z.leb_spec 0 (kseq_return seq)) as [Hl|Hl].
    + destruct (Z.le_gt_cases (Z.of_nat (length (seq_seq seq))) INT_MAX) as [Hfit|Hbig].
      * cbn [read_loop kseq_read].
        destruct (Z.leb_spec 0 (kseq_return seq)); [|lia].
        rewrite (write_record_line _ _ _ _ _ _ _ Hfit). cbn [mbind res_bind].
        destruct (IH (normalized (seq_seq seq))
                     (fprintf out (SQ_line w fn args seq) o))
          as [(md5' & text & ->)|[-> Hex]].
        -- left. exists md5', (SQ_line w fn args seq +:+ text)%string.
           by rewrite fprintf_app.
        -- right. split; [reflexivity|by apply Exists_cons_tl].
      * right. split; [by apply read_loop_overflow; [|lia]|].
        apply Exists_cons_hd. split; [exact Hl|lia].
    + left. exists md5, ""%string. rewrite read_loop_negative by exact Hl.
      by rewrite fprintf_nil.
Qed.

(** X7: how [dict_main] can end on an input of finitely many records.
    Either it ends with status 0 or 1, or a record that is processed has a
    sequence of more than 2^31 - 1 bytes and the run has no defined result.  With status 1 nothing has been written
    to the output stream, and no file has been touched unless the digest
    accumulator could not be obtained: then the file of -o has been created
    or emptied (line 63 comes before line 70) and no message was written.
    With status 0 the accumulator was obtained and nothing has been written
    to the error stream. *)
Theorem exit_status (md5 : option hts_md5_context) (w : world)
    (opts : list (ascii * option string)) (operands : list string) (o : io) :
  (exists status o',
      dict_main md5 w opts operands o = Ok (status, o')
      /\ ((status = 1 /\ io_stdout o' = io_stdout o
           /\ (io_files o' = io_files o
               \/ (md5 = None /\ io_stderr o' = io_stderr o
                   /\ exists args path,
                        parse_options default_args opts = Some args
                        /\ output_fname args = Some path
                        /\ io_files o' = <[path := ""%string]> (io_files o))))
          \/ (status = 0 /\ io_stderr o' = io_stderr o
              /\ exists ctx, md5 = Some ctx)))
  \/ (dict_main md5 w opts operands o = Undef
      /\ exists args fn fp,
           parse_options default_args opts = Some args
           /\ open_input w fn = Some fp
           /\ Exists (fun seq => 0 <= kseq_return seq
                                 /\ INT_MAX < Z.of_nat (length (seq_seq seq)))
                     (ks_records (first_read w fn args fp))).
Proof.
  assert (Husage : exists status o',
             Ok (dict_usage o) = Ok (status, o')
             /\ ((status = 1 /\ io_stdout o' = io_stdout o
                  /\ (io_files o' = io_files o
                      \/ (md5 = None /\ io_stderr o' = io_stderr o
                          /\ exists args path,
                               parse_options default_args opts = Some args
                               /\ output_fname args = Some path
                               /\ io_files o' = <[path := ""%string]> (io_files o))))
                 \/ (status = 0 /\ io_stderr o' = io_stderr o
                     /\ exists ctx, md5 = Some ctx))).
  { eexists _, _. split; [reflexivity|]. left. destruct o. auto. }
  unfold dict_main.
  destruct (parse_options default_args opts) as [args|] eqn:Hopts; [|by left].
  destruct (match operands with [] => _ | _ => _ end) as [fn|]; [|by left].
  clear Husage. unfold write_dict.
  destruct (open_input w fn) as [fp|] eqn:Hin.
  - destruct (open_output w args o) as [o1|[out o1]] eqn:Hout.
    + left. cbn [mbind res_bind]. eexists _, _. split; [reflexivity|]. left.
      destruct (open_output_inl w args o o1 Hout) as [Hso Hfs]. auto.
    + destruct (open_output_state w args o o1 out Hout) as (Hso & Hse & Hfs).
      destruct md5 as [ctx|].
      * cbv zeta.
        destruct (read_loop_cases w fn args out (ks_final (first_read w fn args fp))
                    (ks_records (first_read w fn args fp)) ctx
                    (if header args then fprintf out HD_line o1 else o1))
          as [(md5' & text & ->)|[-> Hex]].
        -- left. cbn [mbind res_bind]. eexists _, _. split; [reflexivity|]. right.
           split; [reflexivity|]. split; [|by exists ctx].
           destruct (header args);
             rewrite ?fprintf_app; exact (open_output_inr w args o o1 out _ Hout).
        -- right. split; [reflexivity|]. by exists args, fn, fp.
      * left. cbn [mbind res_bind]. eexists _, _. split; [reflexivity|]. left.
        split; [reflexivity|]. split; [exact Hso|].
        destruct Hfs as [Hfs|(path & Hpath & Hfs)]; [by left|].
        right. split; [reflexivity|]. split; [exact Hse|]. by exists args, path.
  - left. cbn [mbind res_bind]. eexists _, _. split; [reflexivity|]. left.
    destruct o. auto.
Qed.

(** ** Blanks and letter case *)

Lemma is_blank_not_graph (c : ascii) : is_blank c -> is_graph c = false.
Proof. unfold is_blank, is_graph. intros Hc. leb_cases. Qed.

Lemma retained_blank (s : list ascii) : Forall is_blank s -> retained s = [].
Proof.
  induction 1 as [|c s Hc _ IH]; [reflexivity|].
  by rewrite retained_cons, (is_blank_not_graph c Hc).
Qed.

(** X11: a record whose sequence has at most 2^31 - 1 bytes and is empty
    or holds only bytes outside 0x21..0x7E still gets its line, with LN:0
    and the digest of the empty message. *)
Theorem blank_sequence (w : world) (fn : string) (args : args_t) (out : FILE)
    (md5 : hts_md5_context) (seq : kseq_t) (o : io) :
  fits (seq_seq seq) ->
  Forall is_blank (seq_seq seq) ->
  write_record w fn args out md5 seq o
  = Ok ([], fprintf out
              ("@SQ" +:+ TAB +:+ "SN:" +:+ seq_name seq +:+ TAB +:+ "LN:0" +:+ TAB
               +:+ "M5:d41d8cd98f00b204e9800998ecf8427e"
               +:+ AN_field args (seq_name seq) +:+ UR_field w fn args
               +:+ AS_field args +:+ SP_field args +:+ NL) o).
Proof.
  intros Hfit Hblank. rewrite (write_record_line _ _ _ _ _ _ _ Hfit).
  unfold SQ_line, normalized.
  rewrite (retained_blank _ Hblank).
  change (fold_upper <$> []) with (@nil ascii). rewrite md5_empty.
  reflexivity.
Qed.

Lemma blank_sequence_witness :
  fits (seq_seq blank_record)
  /\ write_record (ref_world 1) "-" default_args samtools_stdout hts_md5_init
                  blank_record empty_io
     = Ok ([], IO ("@SQ" +:+ TAB +:+ "SN:gap" +:+ TAB +:+ "LN:0" +:+ TAB
                   +:+ "M5:d41d8cd98f00b204e9800998ecf8427e" +:+ NL) "" ∅).
Proof.
  assert (Hfit : fits (seq_seq blank_record)) by (vm_compute; discriminate).
  split; [exact Hfit|].
  rewrite (blank_sequence (ref_world 1) "-" default_args samtools_stdout
             hts_md5_init blank_record empty_io Hfit).
  - reflexivity.
  - repeat constructor; unfold is_blank; vm_compute; intuition discriminate.
Defined.

Lemma normalized_app (s1 s2 : list ascii) :
  normalized (s1 ++ s2) = normalized s1 ++ normalized s2.
Proof. unfold normalized, retained. by rewrite List.filter_app, fmap_app. Qed.

Lemma fold_upper_keeps_graph (c : ascii) : is_graph (fold_upper c) = is_graph c.
Proof.
  unfold is_graph, fold_upper. pose proof (byte_val_range c).
  destruct (Z.leb_spec 97 (byte_val c)); destruct (Z.leb_spec (byte_val c) 122);
    cbn [andb]; rewrite ?byte_val_of by lia; leb_cases.
Qed.

Lemma normalized_upper (s : list ascii) :
  normalized (fold_upper <$> s) = normalized s.
Proof.
  induction s as [|c s IH]; [reflexivity|].
  cbn [fmap list_fmap]. rewrite !normalized_cons, fold_upper_keeps_graph.
  by rewrite fold_upper_idem, IH.
Qed.

(** X12: LN and M5 do not see blanks or letter case.  Taking a byte outside
    0x21..0x7E (a blank, a line feed, a byte from 0x80 on) out of the buffer
    anywhere, or folding the buffer to upper case beforehand, leaves length
    and digest as they are. *)
Theorem digest_ignores_blanks_and_case (sgn : bool) (md5a md5b : hts_md5_context)
    (s1 s2 : list ascii) (c : ascii) :
  is_blank c ->
  Z.of_nat (length (s1 ++ c :: s2)) <= INT_MAX ->
  digest sgn md5a (s1 ++ c :: s2) = digest sgn md5b (s1 ++ s2)
  /\ digest sgn md5a (fold_upper <$> (s1 ++ s2)) = digest sgn md5b (s1 ++ s2).
Proof.
  intros Hc Hfit. rewrite length_app in Hfit. cbn [length] in Hfit.
  rewrite !digest_ok by (rewrite ?length_fmap, ?length_app; cbn [length]; lia).
  rewrite <- !normalized_length, normalized_upper, !normalized_app, normalized_cons.
  by rewrite (is_blank_not_graph c Hc).
Qed.

Lemma digest_ignores_blanks_and_case_witness :
  digest true hts_md5_init (bytes_of_string "ACGT" ++ "010"%char :: bytes_of_string "acgt")
  = digest true hts_md5_init (bytes_of_string "ACGTacgt").
Proof.
  apply (digest_ignores_blanks_and_case true hts_md5_init hts_md5_init
           (bytes_of_string "ACGT") (bytes_of_string "acgt") "010"%char).
  - unfold is_blank. left. vm_compute. reflexivity.
  - vm_compute. discriminate.
Defined.

(** ** Aliases back and forth *)

Lemma alias_base_twice (name : string) :
  String.prefix "chrchr" name = false ->
  alias_base (alias_base name) = name
  /\ bare_name (alias_base name) = bare_name name.
Proof.
  intros Hdouble.
  assert (Hchr : forall rest,
             alias_base ("chr" +:+ rest) = rest /\ bare_name ("chr" +:+ rest) = rest).
  { intros rest. unfold alias_base, bare_name. by rewrite prefix_append. }
  destruct (String.prefix "chr" name) eqn:Hp.
  - pose proof (prefix_advance _ _ Hp) as Hname. cbn [String.length] in Hname.
    remember (str_advance 3 name) as rest eqn:Hrest. clear Hrest. subst name.
    destruct (Hchr rest) as [-> ->].
    assert (Hrest : String.prefix "chr" rest = false) by exact Hdouble.
    unfold alias_base, bare_name. by rewrite Hrest.
  - assert (Hb : alias_base name = ("chr" +:+ name)%string)
      by (unfold alias_base; by rewrite Hp).
    assert (Hn : bare_name name = name) by (unfold bare_name; by rewrite Hp).
    rewrite Hb, Hn. exact (Hchr name).
Qed.

(** X13: the alias of the alias is the name.  A record named by the alias of
    another one gets that one's name as its alias, and the same
    mitochondrial extras, unless the name begins with chrchr (the alias of
    chrchr1 is chr1, whose alias is 1). *)
Theorem alias_round_trip (out : FILE) (seq seq' : kseq_t) (o : io) :
  String.prefix "chrchr" (seq_name seq) = false ->
  seq_name seq' = alias_base (seq_name seq) ->
  write_alias out seq' o
  = fprintf out (TAB +:+ "AN:" +:+ seq_name seq +:+ mito_extras (seq_name seq)) o.
Proof.
  intros Hdouble Hname. rewrite write_alias_field, Hname.
  destruct (alias_base_twice _ Hdouble) as [Hbase Hbare].
  unfold mito_extras. by rewrite Hbase, Hbare.
Qed.

Lemma alias_round_trip_witness :
  write_alias samtools_stdout (Kseq "M" []) empty_io
  = IO (TAB +:+ "AN:chrM,chrMT,MT") "" ∅.
Proof.
  rewrite (alias_round_trip samtools_stdout (Kseq "chrM" [])
             (Kseq "M" []) empty_io eq_refl eq_refl).
  reflexivity.
Defined.
